(** * Challenge 1a: PDF structure extraction (process_pdfs.py)

    A shallow embedding of [PDFProcessor] and of the batch driver of
    [Challenge_1a/process_pdfs.py], with the properties of its design
    document proved over it.

    Conventions of the embedding.
    - Python [float] is a binary64 primitive float: font sizes,
      coordinates and the statistics computed from them round as in the
      code, and [sum] adds from the left.  Only the readings of the clock
      are kept as rationals [Q]; no statement depends on them.
    - Python [int] is [Z]; [flags & 16] is [Z.land].
    - Python [str] is [string], each character being one code point below
      256; [str.strip()] removes the code points for which [str.isspace]
      holds.
    - A statement that may raise is a computation in [result]; a
      [try/except Exception] is a [match] on it.
    - The decoder (PyMuPDF), the clock and the file system are inputs of
      the functions that read them. *)

From Stdlib Require Import ZArith QArith Qround List String Ascii Bool Lia.
From Stdlib Require Import DecimalString Sorted Floats.
Import ListNotations.

#[local] Set Warnings "-inexact-float,-register-all".

Local Open Scope string_scope.
Local Open Scope Z_scope.

(** ** Exceptions and fallible computations *)

Inductive exn : Type :=
| KeyError (key : string)
| ValueError (msg : string)
| ZeroDivisionError
| RuntimeError (msg : string)
| OSError (msg : string).

(** [str(e)] as stored in the processing metadata. *)
Definition str_exn (e : exn) : string :=
  match e with
  | KeyError key => "'" ++ key ++ "'"
  | ValueError msg => msg
  | ZeroDivisionError => "division by zero"
  | RuntimeError msg => msg
  | OSError msg => msg
  end.

Inductive result (A : Type) : Type :=
| Ok (a : A)
| Raise (e : exn).
Arguments Ok {A} a.
Arguments Raise {A} e.

Definition bind {A B : Type} (m : result A) (k : A -> result B) : result B :=
  match m with
  | Ok a => k a
  | Raise e => Raise e
  end.

Notation "x <- m ;; k" := (bind m (fun x => k))
  (at level 61, m at next level, right associativity).

(** [d[key]] on a dictionary field that may be missing. *)
Definition getitem {A : Type} (key : string) (field : option A) : result A :=
  match field with
  | Some a => Ok a
  | None => Raise (KeyError key)
  end.

(** [d.get(key, default)]. *)
Definition get_default {A : Type} (field : option A) (default : A) : A :=
  match field with
  | Some a => a
  | None => default
  end.

(** ** Strings *)

(** [str.isspace] on one code point below 256. *)
Definition is_space (c : ascii) : bool :=
  let n := nat_of_ascii c in
  ((9 <=? n) && (n <=? 13))%nat || ((28 <=? n) && (n <=? 32))%nat
  || (n =? 133)%nat || (n =? 160)%nat.

Fixpoint lstrip (s : string) : string :=
  match s with
  | EmptyString => EmptyString
  | String c s' => if is_space c then lstrip s' else s
  end.

(** Removes trailing white space: a character is kept when something
    non-blank follows it or when it is non-blank itself. *)
Fixpoint rstrip (s : string) : string :=
  match s with
  | EmptyString => EmptyString
  | String c s' =>
      match rstrip s' with
      | EmptyString => if is_space c then EmptyString else String c EmptyString
      | String d t => String c (String d t)
      end
  end.

Definition strip (s : string) : string := rstrip (lstrip s).

(** Truthiness of a string: [if text:]. *)
Definition truthy (s : string) : bool :=
  match s with
  | EmptyString => false
  | String _ _ => true
  end.

(** [sep.join(parts)]. *)
Fixpoint join (sep : string) (parts : list string) : string :=
  match parts with
  | [] => ""
  | [p] => p
  | p :: rest => p ++ sep ++ join sep rest
  end.

(** Decimal text of an integer, as an f-string prints it. *)
Definition str_int (z : Z) : string := NilZero.string_of_int (Z.to_int z).

(** ** Data handed over by the decoder *)

(** Lines and spans as the decoder builds them: a line has its ["spans"]
    and a span its four keys.  A line or a span with a key missing is
    outside this model. *)
Record Span : Type := mkSpan {
  span_text : string;
  span_size : float;
  span_flags : Z;
  span_font : string
}.

Record Line : Type := mkLine { line_spans : list Span }.

Definition BBox : Type := (float * float * float * float)%type.

(** A block dictionary.  [block_type] is 0 for text and 1 for an image;
    the other keys may be missing, which [block[key]] reports by
    [KeyError] and [block.get(key, d)] by the default. *)
Record Block : Type := mkBlock {
  block_type : Z;
  block_lines : option (list Line);
  block_bbox : option BBox;
  block_width : option Z;
  block_height : option Z
}.

(** A loaded page: [page.get_text("dict")["blocks"]]. *)
Record Page : Type := mkPage { get_text_blocks : result (list Block) }.

(** A value of the metadata dictionary. *)
Inductive PyVal : Type :=
| PyNone
| PyStr (s : string)
| PyInt (z : Z).

(** An open document.  [doc[i]] is [nth_error doc_pages i]; loading a
    page may fail. *)
Record Document : Type := mkDocument {
  doc_metadata : list (string * PyVal);
  doc_pages : list (result Page);
  get_toc : result (list (list PyVal));
  doc_close : result unit
}.

Definition page_count (doc : Document) : nat := List.length (doc_pages doc).

Definition load_page (doc : Document) (page_num : nat) : result Page :=
  match nth_error (doc_pages doc) page_num with
  | Some p => p
  | None => Raise (ValueError "page not in document")
  end.

(** ** Font statistics *)

Record FontStats : Type := mkFontStats {
  avg_size : float;
  max_size : option float;
  heading_threshold : float;
  large_heading_threshold : float;
  bold_sizes : option (list float)
}.

Definition default_font_stats : FontStats :=
  mkFontStats 12 None 14 16 None.

(** [bool(flags & mask)]. *)
Definition flag_set (flags mask : Z) : bool := negb (Z.land flags mask =? 0).

(** [sum(l)]: the items are added from the left, starting from 0. *)
Definition sum_sizes (l : list float) : float :=
  fold_left PrimFloat.add l 0%float.

(** The float an [int] is converted to when it meets a float. *)
Definition float_of_nat (n : nat) : float :=
  PrimFloat.of_uint63 (Uint63.of_Z (Z.of_nat n)).

(** [sum(l) / len(l)]. *)
Definition py_div (a : float) (n : nat) : result float :=
  match n with
  | O => Raise ZeroDivisionError
  | S _ => Ok (a / float_of_nat n)%float
  end.

(** [max(l)]: an item replaces the maximum when it is greater;
    [ValueError] on an empty list. *)
Definition py_max (l : list float) : result float :=
  match l with
  | [] => Raise (ValueError "max() arg is an empty sequence")
  | x :: rest =>
      Ok (fold_left (fun m y => if (m <? y)%float then y else m) rest x)
  end.

(** The two accumulators of the sampling loops. *)
Definition Samples : Type := (list float * list float)%type.

Definition sample_span (acc : Samples) (span : Span) : Samples :=
  let '(font_sizes, bolds) := acc in
  ((font_sizes ++ [span_size span])%list,
   if flag_set (span_flags span) 16
   then (bolds ++ [span_size span])%list else bolds).

Definition sample_line (acc : Samples) (line : Line) : Samples :=
  fold_left sample_span (line_spans line) acc.

Definition sample_block (acc : Samples) (block : Block) : result Samples :=
  if block_type block =? 0 then
    lines <- getitem "lines" (block_lines block) ;;
    Ok (fold_left sample_line lines acc)
  else Ok acc.

Fixpoint sample_blocks (acc : Samples) (blocks : list Block) : result Samples :=
  match blocks with
  | [] => Ok acc
  | b :: rest => acc' <- sample_block acc b ;; sample_blocks acc' rest
  end.

(** The loop [for page_num in range(sample_pages)]. *)
Fixpoint sample_loop (doc : Document) (acc : Samples) (page_nums : list nat)
  : result Samples :=
  match page_nums with
  | [] => Ok acc
  | page_num :: rest =>
      page <- load_page doc page_num ;;
      blocks <- get_text_blocks page ;;
      acc' <- sample_blocks acc blocks ;;
      sample_loop doc acc' rest
  end.

Definition sampled (doc : Document) (sample_pages : nat) : result Samples :=
  let sample_pages := Nat.min sample_pages (page_count doc) in
  sample_loop doc ([], []) (seq 0 sample_pages).

Definition analyze_font_statistics (doc : Document) (sample_pages : nat)
  : result FontStats :=
  samples <- sampled doc sample_pages ;;
  let '(font_sizes, bolds) := samples in
  match font_sizes with
  | [] => Ok default_font_stats
  | _ :: _ =>
      avg <- py_div (sum_sizes font_sizes) (List.length font_sizes) ;;
      mx <- py_max font_sizes ;;
      let heading := (avg * 1.2)%float in
      let large := (avg * 1.5)%float in
      Ok (mkFontStats avg (Some mx) heading large (Some bolds))
  end.

(** ** Classification *)

Inductive TextType : Type := heading | paragraph | footnote | image.

(** The comparisons [a >= b], [a > b] and [a < b] of two floats. *)
Definition py_ge (a b : float) : bool := (b <=? a)%float.
Definition py_gt (a b : float) : bool := (b <? a)%float.
Definition py_lt (a b : float) : bool := (a <? b)%float.

Definition classify_text_type (span : Span) (font_stats : FontStats)
  : TextType * Z :=
  let size := span_size span in
  let flags := span_flags span in
  let is_bold := flag_set flags 16 in
  if py_ge size (large_heading_threshold font_stats) then (heading, 1)
  else if py_ge size (heading_threshold font_stats)
          || (py_gt size (avg_size font_stats) && is_bold) then (heading, 2)
  else if py_lt size (avg_size font_stats * 0.8)%float then (footnote, 0)
  else (paragraph, 0).

(** ** The extraction result *)

Record FontDesc : Type := mkFontDesc {
  font_name : string;
  font_size : float;
  font_flags : Z;
  font_color : Z
}.

(** One entry of [result["structure"]["sections"]]; the key ["level"] is
    present for headings only. *)
Record SectionEntry : Type := mkSectionEntry {
  sec_type : TextType;
  sec_content : string;
  sec_page : nat;
  sec_bbox : BBox;
  sec_font : FontDesc;
  sec_level : option Z
}.

Record OutlineEntry : Type := mkOutlineEntry {
  outline_title : PyVal;
  outline_level : PyVal;
  outline_page : PyVal
}.

(** [result["metadata"]]: the full dictionary of a processed document, or
    the one-key dictionary of the error result. *)
Inductive Metadata : Type :=
| FullMetadata (title author creator subject keywords : PyVal)
    (pageCount : nat) (creationDate modificationDate : PyVal)
| MinimalMetadata (pageCount : nat).

Definition meta_pageCount (m : Metadata) : nat :=
  match m with
  | FullMetadata _ _ _ _ _ n _ _ => n
  | MinimalMetadata n => n
  end.

(** [m["title"]], when the key exists. *)
Definition meta_title (m : Metadata) : option PyVal :=
  match m with
  | FullMetadata t _ _ _ _ _ _ _ => Some t
  | MinimalMetadata _ => None
  end.

Record ProcessingInfo : Type := mkProcessingInfo {
  processing_time : Q;
  timestamp : string;
  library_version : string;
  total_sections : nat;
  error : option string
}.

Record DocumentResult : Type := mkDocumentResult {
  filename : string;
  metadata : Metadata;
  sections : list SectionEntry;
  outline : list OutlineEntry;
  processing_info : ProcessingInfo
}.

(** [result["structure"]["sections"].append(section)]. *)
Definition append_section (res : DocumentResult) (section : SectionEntry)
  : DocumentResult :=
  mkDocumentResult (filename res) (metadata res)
    (sections res ++ [section])%list (outline res) (processing_info res).

(** ** Text blocks *)

(** The locals of [_process_text_block] while it scans the spans. *)
Record Scan : Type := mkScan {
  block_text_parts : list string;
  primary_font : option string;
  primary_size : float;
  primary_flags : Z
}.

Definition scan_init : Scan := mkScan [] None 0 0.

Definition scan_span (st : Scan) (span : Span) : Scan :=
  let text := strip (span_text span) in
  if truthy text then
    let parts := (block_text_parts st ++ [text])%list in
    if py_gt (span_size span) (primary_size st)
    then mkScan parts (Some (span_font span)) (span_size span) (span_flags span)
    else mkScan parts (primary_font st) (primary_size st) (primary_flags st)
  else st.

Definition scan_line (st : Scan) (line : Line) : Scan :=
  fold_left scan_span (line_spans line) st.

(** [primary_font or "unknown"]. *)
Definition font_or_unknown (f : option string) : string :=
  match f with
  | Some name => if truthy name then name else "unknown"
  | None => "unknown"
  end.

(** The body of [_process_text_block]; [classify_text_type] reads only the
    size and the flags of [primary_span], so its ["font"] (which may be
    [None]) is passed as the empty string when absent. *)
Definition _process_text_block (block : Block) (page_num : nat)
    (font_stats : FontStats) (res : DocumentResult) : result DocumentResult :=
  lines <- getitem "lines" (block_lines block) ;;
  let st := fold_left scan_line lines scan_init in
  match block_text_parts st with
  | [] => Ok res
  | _ :: _ =>
      let block_text := strip (join " " (block_text_parts st)) in
      if negb (truthy block_text) then Ok res
      else
        let primary_span :=
          mkSpan block_text (primary_size st) (primary_flags st)
                 (get_default (primary_font st) "") in
        let '(text_type, level) := classify_text_type primary_span font_stats in
        bbox <- getitem "bbox" (block_bbox block) ;;
        let font :=
          mkFontDesc (font_or_unknown (primary_font st)) (primary_size st)
                     (primary_flags st) 0 in
        let lvl :=
          match text_type with
          | heading => if 0 <? level then Some level else None
          | _ => None
          end in
        Ok (append_section res
              (mkSectionEntry text_type block_text page_num bbox font lvl))
  end.

(** ** Image blocks *)

Definition image_content (block : Block) : string :=
  "[Image: width=" ++ str_int (get_default (block_width block) 0)
  ++ ", height=" ++ str_int (get_default (block_height block) 0) ++ "]".

Definition image_font : FontDesc := mkFontDesc "image" 0 0 0.

Definition _process_image_block (block : Block) (page_num : nat)
    (res : DocumentResult) : result DocumentResult :=
  bbox <- getitem "bbox" (block_bbox block) ;;
  Ok (append_section res
        (mkSectionEntry image (image_content block) page_num bbox
                        image_font None)).

(** ** The document extractor *)

Record Path : Type := mkPath {
  path_str : string;
  path_name : string;
  path_stem : string
}.

(** The clock readings of one call of [extract_pdf_structure]:
    [time.time()] at entry, [time.time()] when the call finishes or
    fails, and [datetime.now().isoformat()]. *)
Record Clock : Type := mkClock {
  clock_start : Q;
  clock_end : Q;
  clock_now : string
}.

(** [metadata.get(key, default)] on the metadata dictionary. *)
Fixpoint dict_get (d : list (string * PyVal)) (key : string) (default : PyVal)
  : PyVal :=
  match d with
  | [] => default
  | (k, v) :: rest => if String.eqb k key then v else dict_get rest key default
  end.

Definition py_truthy (v : PyVal) : bool :=
  match v with
  | PyNone => false
  | PyStr s => truthy s
  | PyInt z => negb (z =? 0)
  end.

(** [a or b]. *)
Definition py_or (a b : PyVal) : PyVal := if py_truthy a then a else b.

(** [round(x, 3)], halves to the even neighbour. *)
Definition py_round3 (x : Q) : Q :=
  let y := (x * 1000)%Q in
  let f := Qfloor y in
  let n :=
    match Qcompare (y - inject_Z f) (1 # 2) with
    | Lt => f
    | Gt => f + 1
    | Eq => if Z.even f then f else f + 1
    end in
  (inject_Z n / 1000)%Q.

(** The outline loop with its own [try/except]: a failing [get_toc]
    leaves the outline empty. *)
Definition extract_outline (doc : Document) : list OutlineEntry :=
  match get_toc doc with
  | Ok items =>
      flat_map
        (fun item =>
           match item with
           | level :: title :: page :: _ => [mkOutlineEntry title level page]
           | _ => []
           end)
        items
  | Raise _ => []
  end.

Definition process_block (block : Block) (page_num : nat)
    (font_stats : FontStats) (res : DocumentResult) : result DocumentResult :=
  if block_type block =? 0 then _process_text_block block page_num font_stats res
  else if block_type block =? 1 then _process_image_block block page_num res
  else Ok res.

(** The loop over the blocks of a page.  The result dictionary is mutated
    in place, so an exception leaves what was appended before it. *)
Fixpoint process_blocks (blocks : list Block) (page_num : nat)
    (font_stats : FontStats) (res : DocumentResult)
  : DocumentResult * option exn :=
  match blocks with
  | [] => (res, None)
  | b :: rest =>
      match process_block b page_num font_stats res with
      | Ok res' => process_blocks rest page_num font_stats res'
      | Raise e => (res, Some e)
      end
  end.

(** The body of the per-page [try]. *)
Definition page_try (page : Page) (page_num : nat) (font_stats : FontStats)
    (res : DocumentResult) : DocumentResult * option exn :=
  match get_text_blocks page with
  | Ok blocks => process_blocks blocks page_num font_stats res
  | Raise e => (res, Some e)
  end.

(** The per-page [try/except]: the handler logs and continues. *)
Definition process_page (page : Page) (page_num : nat) (font_stats : FontStats)
    (res : DocumentResult) : DocumentResult :=
  fst (page_try page page_num font_stats res).

(** [for page_num in range(doc.page_count)]; [doc[page_num]] is outside
    the per-page [try]. *)
Fixpoint page_loop (doc : Document) (font_stats : FontStats)
    (page_nums : list nat) (res : DocumentResult) : result DocumentResult :=
  match page_nums with
  | [] => Ok res
  | page_num :: rest =>
      page <- load_page doc page_num ;;
      page_loop doc font_stats rest
        (process_page page (page_num + 1) font_stats res)
  end.

Definition initial_result (version : string) (clock : Clock) (pdf_path : Path)
    (doc : Document) : DocumentResult :=
  let md := doc_metadata doc in
  mkDocumentResult (path_name pdf_path)
    (FullMetadata
       (py_or (dict_get md "title" (PyStr "")) (PyStr (path_stem pdf_path)))
       (dict_get md "author" (PyStr ""))
       (dict_get md "creator" (PyStr ""))
       (dict_get md "subject" (PyStr ""))
       (dict_get md "keywords" (PyStr ""))
       (page_count doc)
       (dict_get md "creationDate" (PyStr ""))
       (dict_get md "modDate" (PyStr "")))
    [] []
    (mkProcessingInfo 0 (clock_now clock) version 0 None).

Definition with_outline (res : DocumentResult) (entries : list OutlineEntry)
  : DocumentResult :=
  mkDocumentResult (filename res) (metadata res) (sections res)
    (outline res ++ entries)%list (processing_info res).

Definition finalize (clock : Clock) (res : DocumentResult) : DocumentResult :=
  let info := processing_info res in
  mkDocumentResult (filename res) (metadata res) (sections res) (outline res)
    (mkProcessingInfo (py_round3 (clock_end clock - clock_start clock))
       (timestamp info) (library_version info)
       (List.length (sections res)) (error info)).

(** The body of the outer [try]. *)
Definition extract_try (version : string) (clock : Clock)
    (opened : result Document) (pdf_path : Path) : result DocumentResult :=
  doc <- opened ;;
  font_stats <- analyze_font_statistics doc 5 ;;
  let res := initial_result version clock pdf_path doc in
  let res := with_outline res (extract_outline doc) in
  res <- page_loop doc font_stats (seq 0 (page_count doc)) res ;;
  _ <- doc_close doc ;;
  Ok (finalize clock res).

(** The minimal valid structure returned by the outer handler. *)
Definition error_result (version : string) (clock : Clock) (pdf_path : Path)
    (e : exn) : DocumentResult :=
  mkDocumentResult (path_name pdf_path) (MinimalMetadata 0) [] []
    (mkProcessingInfo (clock_end clock - clock_start clock) (clock_now clock)
       version 0 (Some (str_exn e))).

(** [extract_pdf_structure]; [opened] is what [fitz.open(str(pdf_path))]
    does. *)
Definition extract_pdf_structure (version : string) (clock : Clock)
    (opened : result Document) (pdf_path : Path) : DocumentResult :=
  match extract_try version clock opened pdf_path with
  | Ok res => res
  | Raise e => error_result version clock pdf_path e
  end.

(** ** The batch driver *)

(** A worker pool: [future_error i] is the exception that
    [futures[i].result()] raises, if it does. *)
Record Pool : Type := mkPool { future_error : nat -> option exn }.

(** What the program reads from its surroundings. *)
Record Env : Type := mkEnv {
  fitz_version : string;
  fitz_open : string -> result Document;
  clock_of : Path -> Clock;
  write_json : string -> DocumentResult -> result unit;
  cpu_count : option nat;
  make_pool : nat -> result Pool
}.

Definition process_single_pdf (env : Env) (pdf_path : Path)
    (output_dir : string) : bool :=
  let res :=
    extract_pdf_structure (fitz_version env) (clock_of env pdf_path)
      (fitz_open env (path_str pdf_path)) pdf_path in
  let output_file := output_dir ++ "/" ++ path_stem pdf_path ++ ".json" in
  match write_json env output_file res with
  | Ok _ => true
  | Raise _ => false
  end.

Definition count_if (b : bool) (success_count : nat) : nat :=
  if b then S success_count else success_count.

(** The sequential loop of the fallback. *)
Definition sequential (env : Env) (output_dir : string) (pdf_files : list Path)
    (success_count : nat) : nat :=
  fold_left
    (fun count pdf_file =>
       count_if (process_single_pdf env pdf_file output_dir) count)
    pdf_files success_count.

(** [for future in futures], from the future of index [i] on. *)
Fixpoint collect (env : Env) (pool : Pool) (output_dir : string)
    (pdf_files : list Path) (i : nat) (success_count : nat)
  : nat * option exn :=
  match pdf_files with
  | [] => (success_count, None)
  | pdf_file :: rest =>
      match future_error pool i with
      | Some e => (success_count, Some e)
      | None =>
          collect env pool output_dir rest (S i)
            (count_if (process_single_pdf env pdf_file output_dir)
                      success_count)
      end
  end.

Definition max_workers (env : Env) : nat :=
  Nat.min 4
    (match cpu_count env with
     | Some (S n) => S n
     | _ => 1%nat
     end).

(** [process_pdfs] on the files found in the input directory; the value
    is the final [success_count], or [None] when the function returns
    before counting. *)
Definition process_pdfs (env : Env) (output_dir : string)
    (pdf_files : list Path) : option nat :=
  match pdf_files with
  | [] => None
  | [pdf_file] =>
      Some (count_if (process_single_pdf env pdf_file output_dir) 0)
  | _ =>
      match make_pool env (max_workers env) with
      | Raise _ => Some (sequential env output_dir pdf_files 0)
      | Ok pool =>
          match collect env pool output_dir pdf_files 0 0 with
          | (success_count, None) => Some success_count
          | (success_count, Some _) =>
              Some (sequential env output_dir pdf_files success_count)
          end
      end
  end.

(** * Challenge 1b: block extraction and the ranking pipeline

    [extract_pdf.extract_blocks] and the glue of [pipeline.run].  The
    embedding model, the FAISS index and the summarizer are inputs. *)

(** The exceptions of this part: those of the decoder, and [IndexError]
    of a list subscript. *)
Inductive error_b : Type :=
| Decoder (e : exn)
| IndexError.

Inductive attempt (A : Type) : Type :=
| Done (a : A)
| Failed (e : error_b).
Arguments Done {A} a.
Arguments Failed {A} e.

Definition lift {A : Type} (m : result A) : attempt A :=
  match m with
  | Ok a => Done a
  | Raise e => Failed (Decoder e)
  end.

Definition and_then {A B : Type} (m : attempt A) (k : A -> attempt B)
  : attempt B :=
  match m with
  | Done a => k a
  | Failed e => Failed e
  end.

(** One entry of the list [extract_blocks] returns. *)
Record LineBlock : Type := mkLineBlock {
  lb_page : nat;
  lb_font : float;
  lb_text : string
}.

(** [" ".join([span["text"] for span in line["spans"]]).strip()]. *)
Definition line_text (line : Line) : string :=
  strip (join " " (map span_text (line_spans line))).

(** The body of the loop over the lines; [line["spans"][0]] raises
    [IndexError] on a line without spans. *)
Definition extract_line (page_no : nat) (blocks : list LineBlock)
    (line : Line) : attempt (list LineBlock) :=
  let text := line_text line in
  if negb (truthy text) then Done blocks
  else
    match line_spans line with
    | sp :: _ => Done (blocks ++ [mkLineBlock page_no (span_size sp) text])%list
    | [] => Failed IndexError
    end.

Fixpoint extract_lines (page_no : nat) (blocks : list LineBlock)
    (lines : list Line) : attempt (list LineBlock) :=
  match lines with
  | [] => Done blocks
  | line :: rest =>
      and_then (extract_line page_no blocks line)
               (fun blocks' => extract_lines page_no blocks' rest)
  end.

Definition extract_blk (page_no : nat) (blocks : list LineBlock)
    (blk : Block) : attempt (list LineBlock) :=
  if negb (block_type blk =? 0) then Done blocks
  else
    and_then (lift (getitem "lines" (block_lines blk)))
             (fun lines => extract_lines page_no blocks lines).

Fixpoint extract_blks (page_no : nat) (blocks : list LineBlock)
    (blks : list Block) : attempt (list LineBlock) :=
  match blks with
  | [] => Done blocks
  | blk :: rest =>
      and_then (extract_blk page_no blocks blk)
               (fun blocks' => extract_blks page_no blocks' rest)
  end.

(** [for page_no, page in enumerate(doc, 1)]. *)
Fixpoint extract_pages (pages : list (result Page)) (page_no : nat)
    (blocks : list LineBlock) : attempt (list LineBlock) :=
  match pages with
  | [] => Done blocks
  | p :: rest =>
      and_then (lift p) (fun page =>
      and_then (lift (get_text_blocks page)) (fun blks =>
      and_then (extract_blks page_no blocks blks) (fun blocks' =>
      extract_pages rest (S page_no) blocks')))
  end.

(** [extract_blocks]; [opened] is what [fitz.open(pdf_path)] does. *)
Definition extract_blocks (opened : result Document)
  : attempt (list LineBlock) :=
  and_then (lift opened) (fun doc => extract_pages (doc_pages doc) 1 []).

(** ** The pipeline *)

(** The configuration read from the input JSON, with
    [pdf_dir / item["filename"]] resolved for each document. *)
Record Config : Type := mkConfig {
  cfg_documents : list (string * Path);
  cfg_persona : string;
  cfg_task : string
}.

(** What [run] reads from its surroundings: the decoder, the embedding of
    the texts with the search of the query in the index (the row
    [ids[0]]), the summarizer and the clock. *)
Record Env_b : Type := mkEnv_b {
  open_pdf : string -> result Document;
  search : list string -> string -> nat -> result (list Z);
  refine : string -> result string;
  utcnow : string
}.

Record Candidate : Type := mkCandidate {
  cand_document : string;
  cand_section_title : string;
  cand_importance_rank : nat;
  cand_page_number : nat;
  cand_refined_text : string
}.

Record Meta : Type := mkMeta {
  input_documents : list string;
  persona : string;
  job_to_be_done : string;
  meta_timestamp : string
}.

Record SectionOut : Type := mkSectionOut {
  document : string;
  section_title : string;
  importance_rank : nat;
  page_number : nat
}.

Record SubSection : Type := mkSubSection {
  sub_document : string;
  refined_text : string;
  sub_page_number : nat
}.

Record Output : Type := mkOutput {
  out_metadata : Meta;
  extracted_sections : list SectionOut;
  subsection_analysis : list SubSection
}.

(** The three parallel lists of the ingest loop. *)
Record Ingested : Type := mkIngested {
  docs : list string;
  texts : list string;
  pages : list nat
}.

Definition ingest_block (name : string) (acc : Ingested) (blk : LineBlock)
  : Ingested :=
  mkIngested (docs acc ++ [name])%list (texts acc ++ [lb_text blk])%list
             (pages acc ++ [lb_page blk])%list.

Fixpoint ingest (env : Env_b) (items : list (string * Path)) (acc : Ingested)
  : attempt Ingested :=
  match items with
  | [] => Done acc
  | (_, pdf_path) :: rest =>
      and_then (extract_blocks (open_pdf env (path_str pdf_path)))
        (fun blocks =>
           ingest env rest
             (fold_left (ingest_block (path_name pdf_path)) blocks acc))
  end.

(** [l[i]] for a Python list: negative subscripts count from the end. *)
Definition py_index {A : Type} (l : list A) (i : Z) : attempt A :=
  let n := Z.of_nat (List.length l) in
  let j := if i <? 0 then i + n else i in
  if (0 <=? j) && (j <? n) then
    match nth_error l (Z.to_nat j) with
    | Some a => Done a
    | None => Failed IndexError
    end
  else Failed IndexError.

(** The body of the post-rank loop. *)
Definition candidate (env : Env_b) (ing : Ingested) (rank : nat) (idx : Z)
  : attempt Candidate :=
  and_then (py_index (docs ing) idx) (fun doc =>
  and_then (py_index (texts ing) idx) (fun text =>
  and_then (py_index (pages ing) idx) (fun page =>
  and_then (py_index (texts ing) idx) (fun text' =>
  and_then (lift (refine env text')) (fun refined =>
  Done (mkCandidate doc (substring 0 120 text) rank page refined)))))).

(** [for rank, idx in enumerate(ids[0], 1)], from [rank] on. *)
Fixpoint candidates (env : Env_b) (ing : Ingested) (rank : nat)
    (ids : list Z) : attempt (list Candidate) :=
  match ids with
  | [] => Done []
  | idx :: rest =>
      and_then (candidate env ing rank idx) (fun cand =>
      and_then (candidates env ing (S rank) rest) (fun cands =>
      Done (cand :: cands)))
  end.

Definition to_section (c : Candidate) : SectionOut :=
  mkSectionOut (cand_document c) (cand_section_title c)
               (cand_importance_rank c) (cand_page_number c).

Definition to_subsection (c : Candidate) : SubSection :=
  mkSubSection (cand_document c) (cand_refined_text c) (cand_page_number c).

(** [run], up to the value that is written to the output file. *)
Definition run (env : Env_b) (conf : Config) : attempt Output :=
  let persona := cfg_persona conf in
  let task := cfg_task conf in
  and_then (ingest env (cfg_documents conf) (mkIngested [] [] []))
    (fun ing =>
  and_then (lift (search env (texts ing) (persona ++ " " ++ task) 40))
    (fun ids =>
  and_then (candidates env ing 1 ids) (fun cands =>
  Done (mkOutput
          (mkMeta (map fst (cfg_documents conf)) persona task (utcnow env))
          (map to_section (firstn 15 cands))
          (map to_subsection (firstn 15 cands)))))).

(** * Definitions used by the statements

    Readings of the design document's words, what the loops change, and
    concrete inputs. *)

(** The order of two floats as propositions: [a <= b] and [a < b] hold
    when the comparison of the code answers [True]; neither holds when
    one side is not a number. *)
Definition fle (a b : float) : Prop := (a <=? b)%float = true.
Definition flt (a b : float) : Prop := (a <? b)%float = true.
Arguments fle (a b)%_float.
Arguments flt (a b)%_float.

(** The decision list of the design document, on the primary span's size
    [s] and boldness [b] and the average size [a]; the products are those
    of the code, rounded to binary64. *)
Inductive spec_class (a s : float) (b : bool) : TextType * Z -> Prop :=
| spec_heading1 :
    fle (a * 1.5) s ->
    spec_class a s b (heading, 1)
| spec_heading2 :
    ~ fle (a * 1.5) s ->
    fle (a * 1.2) s \/ (flt a s /\ b = true) ->
    spec_class a s b (heading, 2)
| spec_footnote :
    ~ fle (a * 1.5) s ->
    ~ (fle (a * 1.2) s \/ (flt a s /\ b = true)) ->
    flt s (a * 0.8) ->
    spec_class a s b (footnote, 0)
| spec_paragraph :
    ~ fle (a * 1.5) s ->
    ~ (fle (a * 1.2) s \/ (flt a s /\ b = true)) ->
    ~ flt s (a * 0.8) ->
    spec_class a s b (paragraph, 0).

(** Statistics derived from an average size [a]. *)
Definition stats_of_average (a : float) (mx : option float)
    (bolds : option (list float)) : FontStats :=
  mkFontStats a mx (a * 1.2)%float (a * 1.5)%float bolds.

(** All spans of a text block, in encounter order. *)
Definition block_spans (lines : list Line) : list Span :=
  flat_map line_spans lines.




(** [res] with [added] appended to its sections and nothing else
    changed. *)
Definition extend (res : DocumentResult) (added : list SectionEntry)
  : DocumentResult :=
  mkDocumentResult (filename res) (metadata res)
    (sections res ++ added)%list (outline res) (processing_info res).

(** The same surroundings with another pool constructor. *)
Definition with_make_pool (env : Env) (mk : nat -> result Pool) : Env :=
  mkEnv (fitz_version env) (fitz_open env) (clock_of env) (write_json env)
        (cpu_count env) mk.

(** [key in d], with the value. *)
Fixpoint dict_lookup (d : list (string * PyVal)) (key : string)
  : option PyVal :=
  match d with
  | [] => None
  | (k, v) :: rest => if String.eqb k key then Some v else dict_lookup rest key
  end.

(** The title of the returned result as C10 words it, for a document that
    was opened. *)
Definition title_falls_back (version : string) (clock : Clock)
    (doc : Document) (pdf_path : Path) : Prop :=
  dict_lookup (doc_metadata doc) "title" = None
  \/ dict_lookup (doc_metadata doc) "title" = Some (PyStr "") ->
  meta_title
    (metadata (extract_pdf_structure version clock (Ok doc) pdf_path))
  = Some (PyStr (path_stem pdf_path)).

Definition clock0 : Clock := mkClock 0 1 "2025-07-28T10:00:00".

Definition report_pdf : Path := mkPath "input/report.pdf" "report.pdf" "report".

(** A document that opens, has an empty title, and whose only page
    cannot be loaded. *)
Definition broken_page_doc : Document :=
  mkDocument [("title", PyStr "")] [Raise (RuntimeError "cannot load page")]
             (Ok []) (Ok tt).

Fixpoint all_space (s : string) : bool :=
  match s with
  | EmptyString => true
  | String c s' => is_space c && all_space s'
  end.

(** A string that does not begin with white space. *)
Definition head_nonspace (s : string) : Prop :=
  match s with
  | EmptyString => True
  | String c _ => is_space c = false
  end.

(** The text of a block as the design document forms it: the trimmed
    texts of all spans, joined by one space, trimmed. *)
Definition joined_trimmed_text (lines : list Line) : string :=
  strip (join " " (map (fun sp => strip (span_text sp)) (block_spans lines))).

Definition nonblank (sp : Span) : bool := truthy (strip (span_text sp)).

Definition empty_result : DocumentResult :=
  mkDocumentResult "report.pdf" (MinimalMetadata 0) [] []
    (mkProcessingInfo 0 "" "" 0 None).

(** C4 as stated: the font size of the emitted element is the largest
    size among all spans of the block. *)
Definition largest_of_all_spans (block : Block) (page_num : nat)
    (font_stats : FontStats) (res : DocumentResult) : Prop :=
  forall lines element,
    block_lines block = Some lines ->
    _process_text_block block page_num font_stats res
    = Ok (append_section res element) ->
    forall sp, In sp (block_spans lines) ->
               fle (span_size sp) (font_size (sec_font element)).

(** A block whose largest span is blank: a 30 pt run of spaces before a
    10 pt word. *)
Definition blank_lead_block : Block :=
  mkBlock 0
    (Some [mkLine [mkSpan "   " 30 16 "Display-Bold";
                   mkSpan "hi" 10 0 "Body"]])
    (Some (0, 0, 100, 20)%float) None None.

Definition heading_block : Block :=
  mkBlock 0
    (Some [mkLine [mkSpan " Results " 18 16 "Helvetica-Bold";
                   mkSpan "  " 30 0 "Symbol"];
           mkLine [mkSpan "and discussion" 18 0 "Helvetica";
                   mkSpan "(draft)" 8 2 "Helvetica-Oblique"]])
    (Some (72, 90, 400, 130)%float) None None.

Definition body_block : Block :=
  mkBlock 0 (Some [mkLine [mkSpan "Plain body text." 12 0 "Times"]])
    (Some (72, 140, 400, 160)%float) None None.

Definition blank_block : Block :=
  mkBlock 0 (Some [mkLine [mkSpan "  " 12 0 "Times"; mkSpan "" 10 0 "Times"]])
    (Some (72, 170, 400, 180)%float) None None.

Definition image_block : Block :=
  mkBlock 1 None (Some (10, 20, 650, 500)%float) (Some 640) (Some 480).

(** An image dictionary without its bounding box. *)
Definition boxless_image_block : Block := mkBlock 1 None None (Some 5) None.

(** Three pages; the second fails after its first block. *)
Definition three_page_doc : Document :=
  mkDocument
    [("author", PyStr "A. Writer"); ("subject", PyNone)]
    [Ok (mkPage (Ok [heading_block]));
     Ok (mkPage (Ok [body_block; boxless_image_block; body_block]));
     Ok (mkPage (Ok [image_block]))]
    (Ok [[PyInt 1; PyStr "Results"; PyInt 1]; [PyInt 2; PyStr "short"]])
    (Ok tt).

Definition after_first_page : DocumentResult :=
  process_page (mkPage (Ok [heading_block])) 1 default_font_stats empty_result.

Definition sample_env : Env :=
  mkEnv "1.26.0"
    (fun path =>
       if String.eqb path "input/report.pdf" then Ok three_page_doc
       else Raise (RuntimeError "cannot open file"))
    (fun _ => clock0)
    (fun file _ =>
       if String.eqb file "output/locked.json"
       then Raise (OSError "permission denied") else Ok tt)
    (Some 8%nat)
    (fun _ => Raise (OSError "cannot start workers")).

Definition sample_files : list Path :=
  [report_pdf;
   mkPath "input/missing.pdf" "missing.pdf" "missing";
   mkPath "input/locked.pdf" "locked.pdf" "locked"].

(** The classes from the least to the most prominent. *)
Definition class_rank (c : TextType * Z) : Z :=
  match c with
  | (footnote, _) => 0
  | (paragraph, _) => 1
  | (image, _) => 1
  | (heading, level) => if level =? 1 then 3 else 2
  end.

(** The key ["level"] is present for headings only, and is 1 or 2. *)
Definition level_ok (s : SectionEntry) : Prop :=
  match sec_type s with
  | heading => sec_level s = Some 1 \/ sec_level s = Some 2
  | _ => sec_level s = None
  end.

(** What every appended entry satisfies. *)
Definition entry_ok (s : SectionEntry) : Prop :=
  truthy (sec_content s) = true
  /\ level_ok s
  /\ (sec_type s = image -> sec_font s = image_font)
  /\ font_color (sec_font s) = 0.

(** The number of blocks the decoder yields for a page; none when the
    page or its text cannot be read. *)
Definition page_block_count (p : result Page) : nat :=
  match p with
  | Ok page =>
      match get_text_blocks page with
      | Ok blocks => List.length blocks
      | Raise _ => 0%nat
      end
  | Raise _ => 0%nat
  end.

Definition doc_block_count (doc : Document) : nat :=
  list_sum (map page_block_count (doc_pages doc)).

(** The trimmed texts of the non-blank spans, joined by single spaces. *)
Definition block_content (lines : list Line) : string :=
  join " " (map (fun sp => strip (span_text sp))
                (filter nonblank (block_spans lines))).

(** The entry a text block with a non-blank span appends. *)
Definition text_entry (lines : list Line) (page_num : nat) (bbox : BBox)
    (font_stats : FontStats) : SectionEntry :=
  let st := fold_left scan_span (block_spans lines) scan_init in
  let primary_span :=
    mkSpan (block_content lines) (primary_size st) (primary_flags st)
           (get_default (primary_font st) "") in
  let '(text_type, level) := classify_text_type primary_span font_stats in
  mkSectionEntry text_type (block_content lines) page_num bbox
    (mkFontDesc (font_or_unknown (primary_font st)) (primary_size st)
                (primary_flags st) 0)
    (match text_type with
     | heading => if 0 <? level then Some level else None
     | _ => None
     end).

(** A part of the scan: a trimmed, non-empty text. *)
Definition trimmed_part (p : string) : Prop :=
  truthy p = true /\ head_nonspace p /\ rstrip p = p.

(** The same document with another bookmark table. *)
Definition with_toc (doc : Document) (toc : result (list (list PyVal)))
  : Document :=
  mkDocument (doc_metadata doc) (doc_pages doc) toc (doc_close doc).

(** The number of files whose processing succeeds. *)
Definition successes (env : Env) (output_dir : string) (files : list Path)
  : nat :=
  List.length (filter (fun f => process_single_pdf env f output_dir) files).

Definition two_files : list Path :=
  [report_pdf; mkPath "input/missing.pdf" "missing.pdf" "missing"].

(** The pool starts, and its second future raises. *)
Definition broken_pool_env : Env :=
  with_make_pool sample_env
    (fun _ =>
       Ok (mkPool (fun i => if (i =? 1)%nat
                            then Some (RuntimeError "worker died")
                            else None))).

Definition is_bold (sp : Span) : bool := flag_set (span_flags sp) 16.



(** What every entry of [extract_blocks] satisfies. *)
Definition line_block_ok (b : LineBlock) : Prop :=
  truthy (lb_text b) = true /\ strip (lb_text b) = lb_text b.

(** The three lists of the ingest loop have one entry per block. *)
Definition parallel (ing : Ingested) : Prop :=
  List.length (docs ing) = List.length (texts ing)
  /\ List.length (pages ing) = List.length (texts ing).

Definition in_range (n : nat) (i : Z) : Prop :=
  - Z.of_nat n <= i < Z.of_nat n.

Definition sample_conf : Config :=
  mkConfig [("report.pdf", mkPath "pdfs/report.pdf" "report.pdf" "report")]
           "analyst" "review the results".

(** The index answers with the third block, the first one and the
    padding value [-1]. *)
Definition sample_env_b : Env_b :=
  mkEnv_b
    (fun path =>
       if String.eqb path "pdfs/report.pdf" then Ok three_page_doc
       else Raise (RuntimeError "cannot open file"))
    (fun _ _ _ => Ok [2; 0; -1])
    (fun text => Ok ("Summary: " ++ text))
    "2025-07-28T10:00:00Z".

Definition empty_output : Output := mkOutput (mkMeta [] "" "" "") [] [].

Definition sample_output : Output :=
  match run sample_env_b sample_conf with
  | Done out => out
  | Failed _ => empty_output
  end.

(** The same surroundings with an index that answers [ids]. *)
Definition with_ids (env : Env_b) (ids : list Z) : Env_b :=
  mkEnv_b (open_pdf env) (fun _ _ _ => Ok ids) (refine env) (utcnow env).

Definition sixteen_ids : list Z :=
  [0; 1; 2; 3; 0; 1; 2; 3; 0; 1; 2; 3; 0; 1; 2; 4].

Definition sample_ingested : Ingested :=
  match ingest sample_env_b (cfg_documents sample_conf) (mkIngested [] [] [])
  with
  | Done ing => ing
  | Failed _ => mkIngested [] [] []
  end.

(** The three fields of an outline entry, in the order of the bookmark
    table. *)
Definition outline_fields (o : OutlineEntry) : list PyVal :=
  [outline_level o; outline_title o; outline_page o].

Definition has_three (item : list PyVal) : bool :=
  (3 <=? List.length item)%nat.

(** Nothing can be opened, everything can be written. *)
Definition unreadable_env : Env :=
  mkEnv "1.26.0" (fun _ => Raise (RuntimeError "cannot open file"))
        (fun _ => clock0) (fun _ _ => Ok tt) None
        (fun _ => Ok (mkPool (fun _ => None))).

(** Three text blocks of one bold span each, all of one size. *)
Definition uniform_block (size : float) : Block :=
  mkBlock 0 (Some [mkLine [mkSpan "Section" size 16 "Helvetica-Bold"]])
          (Some (72, 90, 400, 110)%float) None None.

Definition uniform_doc (size : float) : Document :=
  mkDocument []
    [Ok (mkPage (Ok [uniform_block size; uniform_block size;
                     uniform_block size]))]
    (Ok []) (Ok tt).

(** ** The output artifact

    Modelled from the documentation of Python's [json] module: the
    conversion table of the encoder (dict to object, list and tuple to
    array, str to string, int and float to number, None to null) and the
    one of the decoder (object to dict, array to list, string to str,
    integer number to int, real number to float, null to None).  The JSON
    text between [json.dump] and [json.load] is taken to denote the JSON
    value it was written from. *)

(** The Python values a result is built from.  [VTime] is a float read
    from the clock, kept as a rational. *)
Inductive PyValue : Type :=
| VNone
| VInt (z : Z)
| VFloat (x : float)
| VTime (q : Q)
| VStr (s : string)
| VList (l : list PyValue)
| VTuple (l : list PyValue)
| VDict (d : list (string * PyValue)).

Inductive Json : Type :=
| JNull
| JInt (z : Z)
| JReal (x : float)
| JTime (q : Q)
| JString (s : string)
| JArray (l : list Json)
| JObject (d : list (string * Json)).

(** [json.dump]: the JSON value written for a Python value. *)
Fixpoint dump (v : PyValue) : Json :=
  match v with
  | VNone => JNull
  | VInt z => JInt z
  | VFloat x => JReal x
  | VTime q => JTime q
  | VStr s => JString s
  | VList l => JArray (map dump l)
  | VTuple l => JArray (map dump l)
  | VDict d => JObject (map (fun kv => (fst kv, dump (snd kv))) d)
  end.

(** [json.load]: the Python value read from a JSON value. *)
Fixpoint load (j : Json) : PyValue :=
  match j with
  | JNull => VNone
  | JInt z => VInt z
  | JReal x => VFloat x
  | JTime q => VTime q
  | JString s => VStr s
  | JArray l => VList (map load l)
  | JObject d => VDict (map (fun kv => (fst kv, load (snd kv))) d)
  end.

(** A value with every tuple turned into a list. *)
Fixpoint listify (v : PyValue) : PyValue :=
  match v with
  | VList l => VList (map listify l)
  | VTuple l => VList (map listify l)
  | VDict d => VDict (map (fun kv => (fst kv, listify (snd kv))) d)
  | _ => v
  end.

Definition py_of_val (v : PyVal) : PyValue :=
  match v with
  | PyNone => VNone
  | PyStr s => VStr s
  | PyInt z => VInt z
  end.

Definition type_name (t : TextType) : string :=
  match t with
  | heading => "heading"
  | paragraph => "paragraph"
  | footnote => "footnote"
  | image => "image"
  end.

(** [block["bbox"]], a tuple of four floats. *)
Definition py_of_bbox (b : BBox) : PyValue :=
  let '(x0, y0, x1, y1) := b in
  VTuple [VFloat x0; VFloat y0; VFloat x1; VFloat y1].

Definition py_of_font (f : FontDesc) : PyValue :=
  VDict [("name", VStr (font_name f)); ("size", VFloat (font_size f));
         ("flags", VInt (font_flags f)); ("color", VInt (font_color f))].

(** The dictionary of one section; the key ["level"] comes last, when it
    is there. *)
Definition py_of_section (s : SectionEntry) : PyValue :=
  VDict ([("type", VStr (type_name (sec_type s)));
          ("content", VStr (sec_content s));
          ("page", VInt (Z.of_nat (sec_page s)));
          ("bbox", py_of_bbox (sec_bbox s));
          ("font", py_of_font (sec_font s))]
         ++ match sec_level s with
            | Some level => [("level", VInt level)]
            | None => []
            end)%list.

Definition py_of_outline (o : OutlineEntry) : PyValue :=
  VDict [("title", py_of_val (outline_title o));
         ("level", py_of_val (outline_level o));
         ("page", py_of_val (outline_page o))].

Definition py_of_metadata (m : Metadata) : PyValue :=
  match m with
  | FullMetadata title author creator subject keywords pageCount
                 creationDate modificationDate =>
      VDict [("title", py_of_val title); ("author", py_of_val author);
             ("creator", py_of_val creator); ("subject", py_of_val subject);
             ("keywords", py_of_val keywords);
             ("pageCount", VInt (Z.of_nat pageCount));
             ("creationDate", py_of_val creationDate);
             ("modificationDate", py_of_val modificationDate)]
  | MinimalMetadata pageCount => VDict [("pageCount", VInt (Z.of_nat pageCount))]
  end.

Definition py_of_info (i : ProcessingInfo) : PyValue :=
  VDict ([("processing_time", VTime (processing_time i));
          ("timestamp", VStr (timestamp i));
          ("library_version", VStr (library_version i));
          ("total_sections", VInt (Z.of_nat (total_sections i)))]
         ++ match error i with
            | Some msg => [("error", VStr msg)]
            | None => []
            end)%list.

(** The dictionary [extract_pdf_structure] returns. *)
Definition to_py (r : DocumentResult) : PyValue :=
  VDict [("filename", VStr (filename r));
         ("metadata", py_of_metadata (metadata r));
         ("structure",
          VDict [("sections", VList (map py_of_section (sections r)));
                 ("outline", VList (map py_of_outline (outline r)))]);
         ("processing_info", py_of_info (processing_info r))].

(** C9 as stated: writing a result and reading it back gives the result. *)
Definition round_trips (r : DocumentResult) : Prop :=
  load (dump (to_py r)) = to_py r.

(** * Properties *)

(** ** Classification (C1) *)

(** *** The order of binary64 floats *)

Ltac sf_cases :=
  repeat match goal with
         | x : spec_float |- _ => destruct x
         | b : bool |- _ => destruct b
         end;
  cbn in *; try discriminate; try reflexivity;
  repeat match goal with
         | H : context [Z.compare ?a ?b] |- _ =>
             destruct (Z.compare_spec a b); cbn in *; try discriminate
         | |- context [Z.compare ?a ?b] =>
             destruct (Z.compare_spec a b); cbn in *; try discriminate
         end;
  repeat match goal with
         | H : context [Pos.compare_cont Eq ?a ?b] |- _ =>
             change (Pos.compare_cont Eq a b) with (Pos.compare a b) in H;
             destruct (Pos.compare_spec a b); cbn in *; try discriminate
         | |- context [Pos.compare_cont Eq ?a ?b] =>
             change (Pos.compare_cont Eq a b) with (Pos.compare a b);
             destruct (Pos.compare_spec a b); cbn in *; try discriminate
         end;
  subst; try reflexivity; try discriminate; try lia.

Lemma SFleb_trans x y z :
  SFleb x y = true -> SFleb y z = true -> SFleb x z = true.
Proof. unfold SFleb, SFcompare. intros H1 H2. sf_cases. Qed.

Lemma SFltb_leb_trans x y z :
  SFltb x y = true -> SFleb y z = true -> SFltb x z = true.
Proof. unfold SFleb, SFltb, SFcompare. intros H1 H2. sf_cases. Qed.

Lemma SFleb_ltb_trans x y z :
  SFleb x y = true -> SFltb y z = true -> SFltb x z = true.
Proof. unfold SFleb, SFltb, SFcompare. intros H1 H2. sf_cases. Qed.

Lemma SFltb_trans x y z :
  SFltb x y = true -> SFltb y z = true -> SFltb x z = true.
Proof. unfold SFltb, SFcompare. intros H1 H2. sf_cases. Qed.

Lemma SFleb_not_ltb x y : SFleb x y = true -> SFltb y x = false.
Proof. unfold SFleb, SFltb, SFcompare. intros H1. sf_cases. Qed.

Lemma fle_trans (a b c : float) : fle a b -> fle b c -> fle a c.
Proof. unfold fle. rewrite !leb_spec. apply SFleb_trans. Qed.

Lemma flt_fle_trans (a b c : float) : flt a b -> fle b c -> flt a c.
Proof. unfold fle, flt. rewrite leb_spec, !ltb_spec. apply SFltb_leb_trans. Qed.

Lemma fle_flt_trans (a b c : float) : fle a b -> flt b c -> flt a c.
Proof. unfold fle, flt. rewrite leb_spec, !ltb_spec. apply SFleb_ltb_trans. Qed.

Lemma flt_trans (a b c : float) : flt a b -> flt b c -> flt a c.
Proof. unfold flt. rewrite !ltb_spec. apply SFltb_trans. Qed.

(** [a <= b] excludes [b < a]. *)
Lemma fle_not_gt (a b : float) : fle a b -> (b <? a)%float = false.
Proof. unfold fle. rewrite leb_spec, ltb_spec. apply SFleb_not_ltb. Qed.

Lemma py_ge_true (a b : float) : py_ge a b = true <-> fle b a.
Proof. reflexivity. Qed.

Lemma py_ge_false (a b : float) : py_ge a b = false <-> ~ fle b a.
Proof. unfold py_ge, fle. destruct (b <=? a)%float; split; congruence. Qed.

Lemma py_gt_true (a b : float) : py_gt a b = true <-> flt b a.
Proof. reflexivity. Qed.

Lemma py_lt_true (a b : float) : py_lt a b = true <-> flt a b.
Proof. reflexivity. Qed.

Lemma py_lt_false (a b : float) : py_lt a b = false <-> ~ flt a b.
Proof. unfold py_lt, flt. destruct (a <? b)%float; split; congruence. Qed.

(** The decision list has one outcome. *)
Lemma spec_class_functional (a s : float) (b : bool) (r1 r2 : TextType * Z) :
  spec_class a s b r1 -> spec_class a s b r2 -> r1 = r2.
Proof.
  intros H1 H2. destruct H1; destruct H2; try reflexivity; contradiction.
Qed.

(** C1: [classify_text_type] follows the decision list in its priority
    order (level-1 heading, level-2 heading with the bold escalation,
    footnote, paragraph); with an average size of 10, size 16 is a level-1
    heading, 13 a level-2 heading, 11 a level-2 heading when bold and a
    paragraph when not, and 7 a footnote. *)
Theorem classify_text_type_decision :
  (forall (span : Span) (a : float) (mx : option float)
          (bolds : option (list float)),
      spec_class a (span_size span) (flag_set (span_flags span) 16)
        (classify_text_type span (stats_of_average a mx bolds)))
  /\ (forall text flags font mx bolds,
         classify_text_type (mkSpan text 16 flags font)
           (stats_of_average 10 mx bolds) = (heading, 1)
         /\ classify_text_type (mkSpan text 13 flags font)
              (stats_of_average 10 mx bolds) = (heading, 2)
         /\ classify_text_type (mkSpan text 11 flags font)
              (stats_of_average 10 mx bolds)
            = (if flag_set flags 16 then (heading, 2) else (paragraph, 0))
         /\ classify_text_type (mkSpan text 7 flags font)
              (stats_of_average 10 mx bolds) = (footnote, 0)).
Proof.
  split.
  - intros span a mx bolds. unfold classify_text_type, stats_of_average.
    cbn [large_heading_threshold heading_threshold avg_size].
    destruct (py_ge (span_size span) (a * 1.5)) eqn:E1.
    { apply spec_heading1. now apply py_ge_true. }
    apply py_ge_false in E1.
    destruct (py_ge (span_size span) (a * 1.2)
              || py_gt (span_size span) a && flag_set (span_flags span) 16)
      eqn:E2.
    { apply spec_heading2; [exact E1|].
      apply orb_true_iff in E2. destruct E2 as [E2|E2].
      - left. now apply py_ge_true.
      - apply andb_true_iff in E2. destruct E2 as [E2 E3].
        right. split; [now apply py_gt_true | exact E3]. }
    assert (N2 : ~ (fle (a * 1.2) (span_size span)
                    \/ (flt a (span_size span)
                        /\ flag_set (span_flags span) 16 = true))).
    { intros [H|[H H']].
      - apply py_ge_true in H. rewrite H in E2. discriminate.
      - apply py_gt_true in H. rewrite H, H' in E2.
        rewrite orb_true_r in E2. discriminate. }
    destruct (py_lt (span_size span) (a * 0.8)) eqn:E3.
    { apply spec_footnote; auto. }
    apply spec_paragraph; auto; now apply py_lt_false.
  - intros text flags font mx bolds.
    unfold classify_text_type, stats_of_average, py_ge, py_gt, py_lt.
    cbn [span_size span_flags large_heading_threshold heading_threshold
         avg_size].
    repeat split; destruct (flag_set flags 16); reflexivity.
Qed.

(** ** Font statistics (C2) *)





Lemma skipn_nth_error {A : Type} (l : list A) (k : nat) (x : A) :
  nth_error l k = Some x -> skipn k l = x :: skipn (S k) l.
Proof.
  revert k. induction l as [|y l IH]; intros [|k]; cbn; try discriminate.
  - intros H. now injection H as ->.
  - intros H. rewrite (IH _ H). reflexivity.
Qed.






(** ** What the page loop changes *)

Lemma extend_nil (res : DocumentResult) : extend res [] = res.
Proof. destruct res. unfold extend. cbn. now rewrite app_nil_r. Qed.

Lemma extend_extend (res : DocumentResult) (a b : list SectionEntry) :
  extend (extend res a) b = extend res (a ++ b).
Proof. unfold extend. cbn. now rewrite app_assoc. Qed.

Lemma append_section_extend (res : DocumentResult) (s : SectionEntry) :
  append_section res s = extend res [s].
Proof. reflexivity. Qed.

Lemma process_text_block_extend block page_num font_stats res res' :
  _process_text_block block page_num font_stats res = Ok res' ->
  exists added, res' = extend res added /\ (List.length added <= 1)%nat.
Proof.
  unfold _process_text_block.
  destruct (block_lines block) as [lines|]; cbn [getitem bind];
    [|discriminate].
  destruct (block_text_parts (fold_left scan_line lines scan_init)).
  { intros H. injection H as <-. exists []. now rewrite extend_nil; auto. }
  destruct (negb (truthy _)).
  { intros H. injection H as <-. exists []. now rewrite extend_nil; auto. }
  destruct (classify_text_type _ _) as [text_type level].
  destruct (block_bbox block) as [bbox|]; cbn [getitem bind]; [|discriminate].
  intros H. injection H as <-. eexists [_]. split; [reflexivity|cbn; lia].
Qed.

Lemma process_image_block_extend block page_num res res' :
  _process_image_block block page_num res = Ok res' ->
  exists added, res' = extend res added /\ (List.length added <= 1)%nat.
Proof.
  unfold _process_image_block.
  destruct (block_bbox block) as [bbox|]; cbn [getitem bind]; [|discriminate].
  intros H. injection H as <-. eexists [_]. split; [reflexivity|cbn; lia].
Qed.

Lemma process_block_extend block page_num font_stats res res' :
  process_block block page_num font_stats res = Ok res' ->
  exists added, res' = extend res added.
Proof.
  unfold process_block. destruct (block_type block =? 0).
  { intros H. apply process_text_block_extend in H.
    destruct H as [added [H _]]. eauto. }
  destruct (block_type block =? 1).
  { intros H. apply process_image_block_extend in H.
    destruct H as [added [H _]]. eauto. }
  intros H. injection H as <-. exists []. now rewrite extend_nil.
Qed.

Lemma process_blocks_extend blocks page_num font_stats res :
  exists added,
    fst (process_blocks blocks page_num font_stats res) = extend res added.
Proof.
  revert res. induction blocks as [|b blocks IH]; intros res; cbn.
  - exists []. now rewrite extend_nil.
  - destruct (process_block b page_num font_stats res) as [res1|e] eqn:E.
    + apply process_block_extend in E. destruct E as [a ->].
      destruct (IH (extend res a)) as [a' ->].
      exists (a ++ a')%list. apply extend_extend.
    + exists []. cbn. now rewrite extend_nil.
Qed.

Lemma process_page_extend page page_num font_stats res :
  exists added, process_page page page_num font_stats res = extend res added.
Proof.
  unfold process_page, page_try.
  destruct (get_text_blocks page) as [blocks|e].
  - apply process_blocks_extend.
  - exists []. cbn. now rewrite extend_nil.
Qed.

Lemma page_loop_extend doc font_stats page_nums res final :
  page_loop doc font_stats page_nums res = Ok final ->
  exists added, final = extend res added.
Proof.
  revert res. induction page_nums as [|n rest IH]; intros res; cbn.
  - intros H. injection H as <-. exists []. now rewrite extend_nil.
  - destruct (load_page doc n) as [page|e]; cbn; [|discriminate].
    intros H. apply IH in H. destruct H as [a ->].
    destruct (process_page_extend page (n + 1) font_stats res) as [a' ->].
    exists (a' ++ a)%list. apply extend_extend.
Qed.

(** ** The universal fallback (C3) *)

(** C3: [extract_pdf_structure] always returns a result.  When the outer
    [try] fails with [e] (an open failure is one such case) the result
    has [pageCount = 0], no sections, no outline and [str(e)] as its
    error; otherwise it is the assembled result, which carries no
    error. *)
Theorem extract_pdf_structure_never_raises (version : string) (clock : Clock)
    (opened : result Document) (pdf_path : Path) :
  let r := extract_pdf_structure version clock opened pdf_path in
  match extract_try version clock opened pdf_path with
  | Raise e =>
      filename r = path_name pdf_path
      /\ meta_pageCount (metadata r) = 0%nat
      /\ sections r = []
      /\ outline r = []
      /\ error (processing_info r) = Some (str_exn e)
  | Ok res => r = res /\ error (processing_info res) = None
  end
  /\ match opened with
     | Raise e => extract_try version clock opened pdf_path = Raise e
     | Ok _ => True
     end.
Proof.
  intros r. subst r. unfold extract_pdf_structure. split.
  - destruct (extract_try version clock opened pdf_path) as [res|e] eqn:E.
    + split; [reflexivity|].
      unfold extract_try in E.
      destruct opened as [doc|e]; cbn [bind] in E; [|discriminate].
      destruct (analyze_font_statistics doc 5) as [fs|e]; cbn [bind] in E;
        [|discriminate].
      destruct (page_loop doc fs _ _) as [res1|e] eqn:El; cbn [bind] in E;
        [|discriminate].
      destruct (doc_close doc) as [u|e]; cbn [bind] in E; [|discriminate].
      injection E as <-.
      apply page_loop_extend in El. destruct El as [added ->].
      reflexivity.
    + cbn. repeat split.
  - destruct opened as [doc|e]; [exact I|reflexivity].
Qed.

(** ** Partial results (C5) *)

Lemma page_loop_app doc font_stats (a b : list nat) res :
  page_loop doc font_stats (a ++ b) res
  = (r <- page_loop doc font_stats a res ;; page_loop doc font_stats b r).
Proof.
  revert res. induction a as [|n a IH]; intros res; cbn.
  - reflexivity.
  - destruct (load_page doc n) as [page|e]; cbn; [apply IH|reflexivity].
Qed.

(** C5: when the block processing of page [n] fails, after the pages
    [earlier] gave [res1], the handler leaves [res1] with at most some
    sections appended, the loop goes on with the pages [later], and
    whatever the loop returns still begins with the sections of
    [res1]. *)
Theorem page_failure_keeps_earlier_pages (doc : Document)
    (font_stats : FontStats) (earlier later : list nat) (n : nat)
    (res res1 : DocumentResult) (page : Page) (e : exn) :
  page_loop doc font_stats earlier res = Ok res1 ->
  load_page doc n = Ok page ->
  snd (page_try page (n + 1) font_stats res1) = Some e ->
  (exists kept,
      process_page page (n + 1) font_stats res1 = extend res1 kept)
  /\ page_loop doc font_stats (earlier ++ n :: later) res
     = page_loop doc font_stats later
         (process_page page (n + 1) font_stats res1)
  /\ (forall final,
         page_loop doc font_stats (earlier ++ n :: later) res = Ok final ->
         exists more, sections final = (sections res1 ++ more)%list).
Proof.
  intros Hearlier Hload Hfail.
  assert (Hstep : page_loop doc font_stats (earlier ++ n :: later) res
                  = page_loop doc font_stats later
                      (process_page page (n + 1) font_stats res1)).
  { rewrite page_loop_app, Hearlier. cbn. rewrite Hload. reflexivity. }
  split; [apply process_page_extend|]. split; [exact Hstep|].
  intros final Hfinal. rewrite Hstep in Hfinal.
  apply page_loop_extend in Hfinal. destruct Hfinal as [a ->].
  destruct (process_page_extend page (n + 1) font_stats res1) as [kept ->].
  exists (kept ++ a)%list. cbn. now rewrite app_assoc.
Qed.

(** ** Sequential fallback (C6) *)

Lemma sequential_count env output_dir pdf_files success_count :
  sequential env output_dir pdf_files success_count
  = (success_count
     + List.length
         (filter (fun f => process_single_pdf env f output_dir) pdf_files))%nat.
Proof.
  unfold sequential. revert success_count.
  induction pdf_files as [|f files IH]; intros c; cbn.
  - lia.
  - rewrite IH. unfold count_if.
    destruct (process_single_pdf env f output_dir); cbn; lia.
Qed.

(** A pool none of whose futures raises counts what the sequential loop
    counts. *)
Lemma collect_healthy env pool output_dir pdf_files i success_count :
  (forall j, future_error pool j = None) ->
  collect env pool output_dir pdf_files i success_count
  = (sequential env output_dir pdf_files success_count, None).
Proof.
  intros Hpool. unfold sequential. revert i success_count.
  induction pdf_files as [|f files IH]; intros i c; cbn.
  - reflexivity.
  - rewrite Hpool. apply IH.
Qed.

(** C6: when the pool cannot be constructed, [process_pdfs] runs the
    sequential loop over the same files from a count of zero; its tally
    is the number of files whose processing succeeds, which is also the
    tally reached with a pool that works. *)
Theorem pool_failure_same_tally (env : Env) (output_dir : string)
    (pdf_files : list Path) (e : exn) :
  pdf_files <> [] ->
  make_pool env (max_workers env) = Raise e ->
  process_pdfs env output_dir pdf_files
  = Some (sequential env output_dir pdf_files 0)
  /\ sequential env output_dir pdf_files 0
     = List.length
         (filter (fun f => process_single_pdf env f output_dir) pdf_files)
  /\ (forall pool,
         (forall j, future_error pool j = None) ->
         process_pdfs (with_make_pool env (fun _ => Ok pool)) output_dir
           pdf_files
         = process_pdfs env output_dir pdf_files).
Proof.
  intros Hne Hpool.
  assert (Hseq : process_pdfs env output_dir pdf_files
                 = Some (sequential env output_dir pdf_files 0)).
  { destruct pdf_files as [|f [|g files]]; [congruence|reflexivity|].
    unfold process_pdfs. rewrite Hpool. reflexivity. }
  split; [exact Hseq|]. split; [apply sequential_count|].
  intros pool Hhealthy. rewrite Hseq.
  destruct pdf_files as [|f [|g files]]; [congruence|reflexivity|].
  unfold process_pdfs. cbn [make_pool with_make_pool].
  rewrite collect_healthy by exact Hhealthy. reflexivity.
Qed.

(** ** Image blocks (C8) *)

(** C8: an image block that has its bounding box appends exactly one
    element, of type [image], with the synthesized content, the block's
    bounding box and the font [{name "image", size 0, flags 0}]; the font
    statistics play no part. *)
Theorem image_block_one_element (block : Block) (page_num : nat)
    (res : DocumentResult) (bbox : BBox) :
  block_type block = 1 ->
  block_bbox block = Some bbox ->
  let element :=
    mkSectionEntry image
      ("[Image: width=" ++ str_int (get_default (block_width block) 0)
       ++ ", height=" ++ str_int (get_default (block_height block) 0) ++ "]")
      page_num bbox (mkFontDesc "image" 0 0 0) None in
  _process_image_block block page_num res = Ok (append_section res element)
  /\ sections (append_section res element) = (sections res ++ [element])%list
  /\ List.length (sections (append_section res element))
     = S (List.length (sections res))
  /\ (forall font_stats,
         process_block block page_num font_stats res
         = Ok (append_section res element)).
Proof.
  intros Htype Hbbox element.
  assert (H : _process_image_block block page_num res
              = Ok (append_section res element)).
  { unfold _process_image_block. rewrite Hbbox. reflexivity. }
  split; [exact H|]. split; [reflexivity|]. split.
  - cbn. rewrite length_app. cbn. lia.
  - intros font_stats. unfold process_block. rewrite Htype. exact H.
Qed.

(** ** Title fallback (C10) *)

Lemma dict_get_lookup d key default :
  dict_get d key default = get_default (dict_lookup d key) default.
Proof.
  induction d as [|[k v] rest IH]; cbn; [reflexivity|].
  destruct (String.eqb k key); [reflexivity|exact IH].
Qed.

(** C10, as stated, fails: the document opens, but the page failure is a
    top-level failure and the error result has no title. *)
Lemma title_falls_back_counterexample :
  ~ title_falls_back "1.26.0" clock0 broken_page_doc report_pdf.
Proof.
  unfold title_falls_back. intros H.
  assert (H' : @None PyVal = Some (PyStr "report")).
  { apply H. right. reflexivity. }
  discriminate H'.
Qed.

Lemma extract_try_title version clock doc pdf_path res :
  extract_try version clock (Ok doc) pdf_path = Ok res ->
  meta_title (metadata res)
  = Some (py_or (dict_get (doc_metadata doc) "title" (PyStr ""))
                (PyStr (path_stem pdf_path))).
Proof.
  unfold extract_try. cbn [bind].
  destruct (analyze_font_statistics doc 5) as [fs|e]; cbn [bind];
    [|discriminate].
  destruct (page_loop doc fs _ _) as [res1|e] eqn:El; cbn [bind];
    [|discriminate].
  destruct (doc_close doc) as [u|e]; cbn [bind]; [|discriminate].
  intros H. injection H as <-.
  apply page_loop_extend in El. destruct El as [added ->].
  reflexivity.
Qed.

(** C10 (amended): for a document that is opened and processed without a
    top-level failure, the title of the result is the filename's stem
    when the metadata has no title or an empty one, and the metadata's
    title itself when that is a non-empty string. *)
Theorem title_falls_back_when_processed (version : string) (clock : Clock)
    (doc : Document) (pdf_path : Path) (res : DocumentResult) :
  extract_try version clock (Ok doc) pdf_path = Ok res ->
  let title :=
    meta_title
      (metadata (extract_pdf_structure version clock (Ok doc) pdf_path)) in
  (dict_lookup (doc_metadata doc) "title" = None
   \/ dict_lookup (doc_metadata doc) "title" = Some (PyStr "") ->
   title = Some (PyStr (path_stem pdf_path)))
  /\ (forall s,
         dict_lookup (doc_metadata doc) "title" = Some (PyStr s) ->
         s <> "" ->
         title = Some (PyStr s)).
Proof.
  intros Hok title. subst title. unfold extract_pdf_structure.
  rewrite Hok. rewrite (extract_try_title _ _ _ _ _ Hok).
  rewrite dict_get_lookup. split.
  - intros [H|H]; rewrite H; reflexivity.
  - intros s H Hs. rewrite H. cbn. unfold py_or. cbn.
    destruct s; [congruence|reflexivity].
Qed.

(** ** White space *)

Lemma lstrip_head (s : string) : head_nonspace (lstrip s).
Proof.
  induction s as [|c s IH]; cbn; [exact I|].
  destruct (is_space c) eqn:E; [exact IH|exact E].
Qed.

Lemma lstrip_all_space (s : string) :
  lstrip s = "" <-> all_space s = true.
Proof.
  induction s as [|c s IH]; cbn; [tauto|].
  destruct (is_space c); cbn; [exact IH|]. split; discriminate.
Qed.

Lemma rstrip_head (s : string) :
  head_nonspace s -> head_nonspace (rstrip s) /\ (rstrip s = "" -> s = "").
Proof.
  destruct s as [|c s]; cbn; [tauto|].
  intros Hc. destruct (rstrip s); [rewrite Hc|]; cbn; split;
    auto; discriminate.
Qed.

Lemma strip_head (s : string) : head_nonspace (strip s).
Proof. unfold strip. apply rstrip_head, lstrip_head. Qed.

Lemma rstrip_all_space (s : string) : all_space s = true -> rstrip s = "".
Proof.
  induction s as [|c s IH]; cbn; [reflexivity|].
  intros H. apply andb_true_iff in H. destruct H as [Hc Hs].
  rewrite (IH Hs), Hc. reflexivity.
Qed.

Lemma strip_empty_iff (s : string) : strip s = "" <-> all_space s = true.
Proof.
  unfold strip. split.
  - intros H. apply lstrip_all_space.
    now apply (proj2 (rstrip_head _ (lstrip_head s))).
  - intros H. apply lstrip_all_space in H. now rewrite H.
Qed.

Lemma truthy_false (s : string) : truthy s = false <-> s = "".
Proof. destruct s; cbn; split; congruence. Qed.

Lemma head_nonspace_all_space (s : string) :
  head_nonspace s -> all_space s = true -> s = "".
Proof.
  destruct s as [|c s]; cbn; [reflexivity|].
  intros Hc H. rewrite Hc in H. discriminate.
Qed.

Lemma all_space_app (a b : string) :
  all_space (a ++ b) = all_space a && all_space b.
Proof.
  induction a as [|c a IH]; cbn; [reflexivity|].
  now rewrite IH, andb_assoc.
Qed.

Lemma all_space_join (sep : string) (parts : list string) :
  all_space (join sep parts) = true ->
  forall p, In p parts -> all_space p = true.
Proof.
  induction parts as [|a [|b rest] IH]; cbn [join].
  - intros _ p [].
  - intros H p [<-|[]]. exact H.
  - rewrite !all_space_app. intros H.
    apply andb_true_iff in H. destruct H as [Ha H].
    apply andb_true_iff in H. destruct H as [_ H].
    intros p [<-|Hin]; [exact Ha|]. exact (IH H p Hin).
Qed.

(** A join whose first part is non-empty and trimmed is not blank. *)
Lemma strip_join_truthy (sep p : string) (rest : list string) :
  head_nonspace p -> truthy p = true ->
  truthy (strip (join sep (p :: rest))) = true.
Proof.
  intros Hhead Hp.
  destruct (truthy (strip (join sep (p :: rest)))) eqn:E; [reflexivity|].
  apply truthy_false, strip_empty_iff in E.
  assert (Hall : all_space p = true).
  { apply (all_space_join _ _ E). now left. }
  rewrite (head_nonspace_all_space _ Hhead Hall) in Hp. discriminate.
Qed.

(** ** Blank text blocks (C7) *)

Lemma scan_lines_spans (lines : list Line) (st : Scan) :
  fold_left scan_line lines st = fold_left scan_span (block_spans lines) st.
Proof.
  revert st. induction lines as [|l lines IH]; intros st; cbn;
    [reflexivity|].
  unfold block_spans in *. rewrite fold_left_app, IH. reflexivity.
Qed.

(** Spans of blank text leave the scan as it is. *)
Lemma scan_filter (spans : list Span) (st : Scan) :
  fold_left scan_span spans st
  = fold_left scan_span (filter nonblank spans) st.
Proof.
  revert st. induction spans as [|sp spans IH]; intros st; cbn;
    [reflexivity|].
  unfold nonblank at 1. destruct (truthy (strip (span_text sp))) eqn:E.
  - cbn. apply IH.
  - unfold scan_span at 2. rewrite E. apply IH.
Qed.

Lemma joined_blank_no_nonblank (lines : list Line) :
  joined_trimmed_text lines = "" ->
  filter nonblank (block_spans lines) = [].
Proof.
  unfold joined_trimmed_text. intros H. apply strip_empty_iff in H.
  induction (block_spans lines) as [|sp spans IH]; [reflexivity|].
  cbn [filter]. unfold nonblank at 1.
  assert (Hsp : all_space (strip (span_text sp)) = true).
  { apply (all_space_join _ _ H). cbn. now left. }
  rewrite (head_nonspace_all_space _ (strip_head _) Hsp). cbn.
  apply IH. destruct spans as [|sp' spans']; [reflexivity|].
  cbn [map join] in H. rewrite !all_space_app in H.
  apply andb_true_iff in H. destruct H as [_ H].
  apply andb_true_iff in H. destruct H as [_ H]. exact H.
Qed.

(** C7: a text block whose joined, trimmed text is empty leaves the
    result as it is: no element is appended and nothing is raised. *)
Theorem blank_text_block_no_element (block : Block) (lines : list Line)
    (page_num : nat) (font_stats : FontStats) (res : DocumentResult) :
  block_type block = 0 ->
  block_lines block = Some lines ->
  joined_trimmed_text lines = "" ->
  _process_text_block block page_num font_stats res = Ok res
  /\ process_block block page_num font_stats res = Ok res
  /\ fst (process_blocks [block] page_num font_stats res) = res.
Proof.
  intros Htype Hlines Hblank.
  assert (H : _process_text_block block page_num font_stats res = Ok res).
  { unfold _process_text_block. rewrite Hlines. cbn [getitem bind].
    rewrite scan_lines_spans, scan_filter.
    rewrite (joined_blank_no_nonblank _ Hblank). reflexivity. }
  assert (H' : process_block block page_num font_stats res = Ok res).
  { unfold process_block. rewrite Htype. exact H. }
  split; [exact H|]. split; [exact H'|].
  cbn. rewrite H'. reflexivity.
Qed.

(** ** The primary span (C4) *)

(** C4, as stated, fails: the blank 30 pt span is not considered and the
    element carries the 10 pt span. *)
Lemma largest_of_all_spans_counterexample :
  ~ largest_of_all_spans blank_lead_block 1 default_font_stats empty_result.
Proof.
  intros H.
  specialize (H _ (mkSectionEntry paragraph "hi" 1 (0, 0, 100, 20)%float
                     (mkFontDesc "Body" 10 0 0) None)
                eq_refl eq_refl
                (mkSpan "   " 30 16 "Display-Bold")).
  assert (Hle : fle 30 10) by (apply H; now left).
  discriminate Hle.
Qed.

Lemma scan_parts (spans : list Span) (st : Scan) :
  block_text_parts (fold_left scan_span spans st)
  = (block_text_parts st
     ++ map (fun sp => strip (span_text sp)) (filter nonblank spans))%list.
Proof.
  revert st. induction spans as [|sp spans IH]; intros st; cbn [fold_left].
  - cbn. now rewrite app_nil_r.
  - rewrite IH. cbn [filter]. unfold scan_span, nonblank.
    destruct (truthy (strip (span_text sp))); [|reflexivity].
    destruct (py_gt (span_size sp) (primary_size st)); cbn;
      now rewrite <- app_assoc.
Qed.

(** Spans smaller than [bound] keep the primary size below [bound]. *)
Lemma scan_below (spans : list Span) (st : Scan) (bound : float) :
  (forall q, In q spans -> flt (span_size q) bound) ->
  flt (primary_size st) bound ->
  flt (primary_size (fold_left scan_span spans st)) bound.
Proof.
  revert st. induction spans as [|sp spans IH]; intros st Hall Hst;
    cbn [fold_left]; [exact Hst|].
  apply IH; [intros q Hq; apply Hall; now right|].
  unfold scan_span. destruct (truthy (strip (span_text sp))); [|exact Hst].
  destruct (py_gt (span_size sp) (primary_size st)); cbn; [|exact Hst].
  apply Hall. now left.
Qed.

(** Spans that are not larger than the primary size leave it, its font
    and its flags as they are. *)
Lemma scan_keeps (spans : list Span) (st : Scan) :
  (forall q, In q spans -> fle (span_size q) (primary_size st)) ->
  let st' := fold_left scan_span spans st in
  primary_size st' = primary_size st
  /\ primary_font st' = primary_font st
  /\ primary_flags st' = primary_flags st.
Proof.
  revert st. induction spans as [|sp spans IH]; intros st Hall;
    cbn [fold_left]; [cbn; auto|].
  assert (Hstep : primary_size (scan_span st sp) = primary_size st
                  /\ primary_font (scan_span st sp) = primary_font st
                  /\ primary_flags (scan_span st sp) = primary_flags st).
  { unfold scan_span. destruct (truthy (strip (span_text sp))); [|auto].
    assert (Hle : fle (span_size sp) (primary_size st))
      by (apply Hall; now left).
    apply fle_not_gt in Hle. unfold py_gt. rewrite Hle. cbn. auto. }
  destruct Hstep as [Hs [Hf Hg]].
  destruct (IH (scan_span st sp)) as [Hs' [Hf' Hg']].
  { intros q Hq. rewrite Hs. apply Hall. now right. }
  cbn zeta in *. rewrite Hs', Hf', Hg'. auto.
Qed.

(** The scan of [earlier ++ p :: later], where [p] has text, is larger
    than whatever precedes it and is not exceeded by what follows, ends
    with [p] as the primary span. *)
Lemma scan_first_largest (earlier later : list Span) (p : Span) (st : Scan) :
  nonblank p = true ->
  flt (primary_size st) (span_size p) ->
  (forall q, In q earlier -> flt (span_size q) (span_size p)) ->
  (forall q, In q later -> fle (span_size q) (span_size p)) ->
  let st' := fold_left scan_span (earlier ++ p :: later) st in
  primary_size st' = span_size p
  /\ primary_font st' = Some (span_font p)
  /\ primary_flags st' = span_flags p.
Proof.
  intros Hp Hst Hearlier Hlater. cbn zeta.
  rewrite fold_left_app. cbn [fold_left].
  pose proof (scan_below earlier st (span_size p) Hearlier Hst) as Hbelow.
  set (st1 := fold_left scan_span earlier st) in *.
  assert (Hhit : primary_size (scan_span st1 p) = span_size p
                 /\ primary_font (scan_span st1 p) = Some (span_font p)
                 /\ primary_flags (scan_span st1 p) = span_flags p).
  { unfold scan_span. unfold nonblank in Hp. rewrite Hp.
    unfold py_gt. rewrite Hbelow. cbn. auto. }
  destruct Hhit as [Hs [Hf Hg]].
  destruct (scan_keeps later (scan_span st1 p)) as [Hs' [Hf' Hg']].
  { intros q Hq. rewrite Hs. now apply Hlater. }
  rewrite Hs', Hf', Hg'. auto.
Qed.

(** C4 (amended): among the spans of a text block whose trimmed text is
    not empty, taken in encounter order, let [p] be the first one of
    largest size, that size being positive.  The block emits one element,
    whose font descriptor carries the size and the flags of [p] and its
    font name (["unknown"] for an empty name), with the block's bounding
    box, the caller's page number and the joined text. *)
Theorem primary_span_first_largest_nonblank (block : Block)
    (lines : list Line) (bbox : BBox) (page_num : nat)
    (font_stats : FontStats) (res : DocumentResult)
    (earlier later : list Span) (p : Span) :
  block_lines block = Some lines ->
  block_bbox block = Some bbox ->
  filter nonblank (block_spans lines) = (earlier ++ p :: later)%list ->
  (forall q, In q earlier -> flt (span_size q) (span_size p)) ->
  (forall q, In q later -> fle (span_size q) (span_size p)) ->
  flt 0 (span_size p) ->
  exists element,
    _process_text_block block page_num font_stats res
    = Ok (append_section res element)
    /\ sec_font element
       = mkFontDesc (font_or_unknown (Some (span_font p))) (span_size p)
                    (span_flags p) 0
    /\ sec_bbox element = bbox
    /\ sec_page element = page_num
    /\ sec_content element
       = strip (join " " (map (fun sp => strip (span_text sp))
                              (earlier ++ p :: later))).
Proof.
  intros Hlines Hbbox Hsplit Hearlier Hlater Hpos.
  assert (Hnb : forall q, In q (earlier ++ p :: later) -> nonblank q = true).
  { intros q Hq. rewrite <- Hsplit in Hq. now apply filter_In in Hq. }
  assert (Hp : nonblank p = true).
  { apply Hnb. apply in_or_app. right. now left. }
  unfold _process_text_block. rewrite Hlines. cbn [getitem bind].
  rewrite scan_lines_spans.
  pose proof (scan_parts (block_spans lines) scan_init) as Hparts.
  rewrite scan_filter, Hsplit in *.
  destruct (scan_first_largest earlier later p scan_init Hp Hpos
              Hearlier Hlater) as [Hs [Hf Hg]].
  set (st := fold_left scan_span (earlier ++ p :: later) scan_init) in *.
  cbn [block_text_parts scan_init app] in Hparts. rewrite Hparts.
  assert (Hfirst : exists first rest,
             map (fun sp => strip (span_text sp)) (earlier ++ p :: later)
             = first :: rest
             /\ truthy first = true /\ head_nonspace first).
  { destruct earlier as [|q0 l]; cbn [app map]; eexists _, _;
      (split; [reflexivity|split; [|apply strip_head]]).
    - exact Hp.
    - apply (Hnb q0). now left. }
  destruct Hfirst as [first [rest [Hm [Ht Hh]]]]. rewrite Hm.
  rewrite (strip_join_truthy " " first rest Hh Ht). cbn [negb].
  destruct (classify_text_type _ font_stats) as [text_type level].
  rewrite Hbbox. cbn [getitem bind].
  eexists. split; [reflexivity|]. cbn.
  rewrite Hs, Hf, Hg. auto.
Qed.

(** ** The functions at concrete inputs *)

Example strip_example : strip "  a b  " = "a b".
Proof. reflexivity. Qed.

Example image_content_example :
  image_content image_block = "[Image: width=640, height=480]".
Proof. reflexivity. Qed.

Example extract_example :
  let r :=
    extract_pdf_structure "1.26.0" clock0 (Ok three_page_doc) report_pdf in
  map sec_type (sections r) = [heading; footnote; image]
  /\ map sec_level (sections r) = [Some 2; None; None]
  /\ map sec_page (sections r) = [1; 2; 3]%nat
  /\ meta_title (metadata r) = Some (PyStr "report")
  /\ List.length (outline r) = 1%nat
  /\ total_sections (processing_info r) = 3%nat.
Proof. vm_compute. repeat split. Qed.

Example process_pdfs_example :
  process_pdfs sample_env "output" sample_files = Some 2%nat.
Proof. reflexivity. Qed.

Lemma primary_span_first_largest_nonblank_witness :
  exists element,
    _process_text_block heading_block 1 default_font_stats empty_result
    = Ok (append_section empty_result element)
    /\ sec_font element = mkFontDesc "Helvetica-Bold" 18 16 0
    /\ sec_bbox element = (72, 90, 400, 130)%float
    /\ sec_page element = 1%nat
    /\ sec_content element = "Results and discussion (draft)".
Proof.
  apply (primary_span_first_largest_nonblank heading_block
           [mkLine [mkSpan " Results " 18 16 "Helvetica-Bold";
                    mkSpan "  " 30 0 "Symbol"];
            mkLine [mkSpan "and discussion" 18 0 "Helvetica";
                    mkSpan "(draft)" 8 2 "Helvetica-Oblique"]]
           (72, 90, 400, 130)%float 1%nat default_font_stats empty_result
           []
           [mkSpan "and discussion" 18 0 "Helvetica";
            mkSpan "(draft)" 8 2 "Helvetica-Oblique"]
           (mkSpan " Results " 18 16 "Helvetica-Bold")).
  - reflexivity.
  - reflexivity.
  - reflexivity.
  - intros q [].
  - intros q [<-|[<-|[]]]; reflexivity.
  - reflexivity.
Defined.

Lemma page_failure_keeps_earlier_pages_witness :
  (exists kept,
      process_page (mkPage (Ok [body_block; boxless_image_block; body_block]))
        2 default_font_stats after_first_page
      = extend after_first_page kept)
  /\ page_loop three_page_doc default_font_stats [0; 1; 2]%nat empty_result
     = page_loop three_page_doc default_font_stats [2%nat]
         (process_page
            (mkPage (Ok [body_block; boxless_image_block; body_block]))
            2 default_font_stats after_first_page)
  /\ (forall final,
         page_loop three_page_doc default_font_stats [0; 1; 2]%nat empty_result
         = Ok final ->
         exists more, sections final = (sections after_first_page ++ more)%list).
Proof.
  apply (page_failure_keeps_earlier_pages three_page_doc default_font_stats
           [0%nat] [2%nat] 1%nat empty_result after_first_page
           (mkPage (Ok [body_block; boxless_image_block; body_block]))
           (KeyError "bbox")).
  - reflexivity.
  - reflexivity.
  - reflexivity.
Defined.

Lemma pool_failure_same_tally_witness :
  process_pdfs sample_env "output" sample_files
  = Some (sequential sample_env "output" sample_files 0)
  /\ sequential sample_env "output" sample_files 0
     = List.length
         (filter (fun f => process_single_pdf sample_env f "output")
                 sample_files)
  /\ (forall pool,
         (forall j, future_error pool j = None) ->
         process_pdfs (with_make_pool sample_env (fun _ => Ok pool)) "output"
           sample_files
         = process_pdfs sample_env "output" sample_files).
Proof.
  apply (pool_failure_same_tally sample_env "output" sample_files
           (OSError "cannot start workers")).
  - discriminate.
  - reflexivity.
Defined.

Lemma blank_text_block_no_element_witness :
  _process_text_block blank_block 1 default_font_stats empty_result
  = Ok empty_result
  /\ process_block blank_block 1 default_font_stats empty_result
     = Ok empty_result
  /\ fst (process_blocks [blank_block] 1 default_font_stats empty_result)
     = empty_result.
Proof.
  apply (blank_text_block_no_element blank_block
           [mkLine [mkSpan "  " 12 0 "Times"; mkSpan "" 10 0 "Times"]]
           1%nat default_font_stats empty_result).
  - reflexivity.
  - reflexivity.
  - reflexivity.
Defined.

Lemma image_block_one_element_witness :
  let element :=
    mkSectionEntry image "[Image: width=640, height=480]" 3
      (10, 20, 650, 500)%float (mkFontDesc "image" 0 0 0) None in
  _process_image_block image_block 3 empty_result
  = Ok (append_section empty_result element)
  /\ sections (append_section empty_result element)
     = (sections empty_result ++ [element])%list
  /\ List.length (sections (append_section empty_result element))
     = S (List.length (sections empty_result))
  /\ (forall font_stats,
         process_block image_block 3 font_stats empty_result
         = Ok (append_section empty_result element)).
Proof.
  apply (image_block_one_element image_block 3%nat empty_result
           (10, 20, 650, 500)%float).
  - reflexivity.
  - reflexivity.
Defined.

Lemma title_falls_back_when_processed_witness :
  dict_lookup (doc_metadata three_page_doc) "title" = None
  /\ meta_title
       (metadata
          (extract_pdf_structure "1.26.0" clock0 (Ok three_page_doc)
             report_pdf))
     = Some (PyStr "report").
Proof.
  split; [reflexivity|].
  pose proof (title_falls_back_when_processed "1.26.0" clock0 three_page_doc
                report_pdf
                (extract_pdf_structure "1.26.0" clock0 (Ok three_page_doc)
                   report_pdf)
                eq_refl) as H.
  cbn zeta in H. destruct H as [H _]. apply H. left. reflexivity.
Defined.

(** * Further properties of the extractor *)

(** ** Classification is monotone *)

(** Whatever the statistics are, a span that is at least as large as
    another, and bold if the other is, is classified at least as high:
    footnote, paragraph, level-2 heading, level-1 heading. *)
Theorem classify_text_type_monotone (sp1 sp2 : Span) (font_stats : FontStats) :
  fle (span_size sp1) (span_size sp2) ->
  (flag_set (span_flags sp1) 16 = true -> flag_set (span_flags sp2) 16 = true) ->
  class_rank (classify_text_type sp1 font_stats)
  <= class_rank (classify_text_type sp2 font_stats).
Proof.
  intros Hsize Hbold. unfold classify_text_type.
  destruct (py_ge (span_size sp2) (large_heading_threshold font_stats)) eqn:L2.
  { repeat match goal with
           | |- context [if ?c then _ else _] => destruct c
           end; cbn; lia. }
  assert (L1 : py_ge (span_size sp1) (large_heading_threshold font_stats)
               = false).
  { apply py_ge_false. intros H. apply py_ge_false in L2. apply L2.
    eapply fle_trans; eassumption. }
  rewrite L1.
  destruct (py_ge (span_size sp2) (heading_threshold font_stats)
            || py_gt (span_size sp2) (avg_size font_stats)
               && flag_set (span_flags sp2) 16) eqn:H2.
  { repeat match goal with
           | |- context [if ?c then _ else _] => destruct c
           end; cbn; lia. }
  apply orb_false_iff in H2. destruct H2 as [H2 B2].
  assert (H1 : py_ge (span_size sp1) (heading_threshold font_stats)
               || py_gt (span_size sp1) (avg_size font_stats)
                  && flag_set (span_flags sp1) 16 = false).
  { apply orb_false_iff. split.
    - apply py_ge_false. intros H. apply py_ge_false in H2. apply H2.
      eapply fle_trans; eassumption.
    - apply andb_false_iff. apply andb_false_iff in B2.
      destruct (flag_set (span_flags sp1) 16) eqn:F1; [|now right].
      rewrite (Hbold eq_refl) in B2. destruct B2 as [B2|B2]; [|discriminate].
      left. destruct (py_gt (span_size sp1) (avg_size font_stats)) eqn:G1;
        [|reflexivity].
      apply py_gt_true in G1.
      pose proof (flt_fle_trans _ _ _ G1 Hsize) as G2.
      apply py_gt_true in G2. congruence. }
  rewrite H1.
  destruct (py_lt (span_size sp2) (avg_size font_stats * 0.8)) eqn:F2.
  - assert (F1 : py_lt (span_size sp1) (avg_size font_stats * 0.8) = true).
    { apply py_lt_true. apply py_lt_true in F2.
      eapply fle_flt_trans; eassumption. }
    rewrite F1. cbn. lia.
  - destruct (py_lt (span_size sp1) _); cbn; lia.
Qed.

Lemma classify_text_type_monotone_witness :
  class_rank
    (classify_text_type (mkSpan "a" 11 0 "F") (stats_of_average 10 None None))
  <= class_rank
       (classify_text_type (mkSpan "b" 11 16 "F")
          (stats_of_average 10 None None)).
Proof.
  apply (classify_text_type_monotone (mkSpan "a" 11 0 "F")
           (mkSpan "b" 11 16 "F") (stats_of_average 10 None None)).
  - reflexivity.
  - cbn. discriminate.
Defined.

(** ** What the sections of a result look like *)

Lemma classify_text_type_cases (span : Span) (font_stats : FontStats) :
  classify_text_type span font_stats = (heading, 1)
  \/ classify_text_type span font_stats = (heading, 2)
  \/ classify_text_type span font_stats = (footnote, 0)
  \/ classify_text_type span font_stats = (paragraph, 0).
Proof.
  unfold classify_text_type.
  repeat match goal with
         | |- context [if ?c then _ else _] => destruct c
         end; auto.
Qed.

Lemma process_text_block_entry block page_num font_stats res res' :
  _process_text_block block page_num font_stats res = Ok res' ->
  res' = res
  \/ exists s, res' = append_section res s
               /\ sec_page s = page_num /\ entry_ok s /\ sec_type s <> image.
Proof.
  unfold _process_text_block.
  destruct (block_lines block) as [lines|]; cbn [getitem bind];
    [|discriminate].
  destruct (block_text_parts (fold_left scan_line lines scan_init)).
  { intros H. injection H as <-. now left. }
  destruct (truthy (strip (join " " (s :: l)))) eqn:Ht; cbn [negb].
  2:{ intros H. injection H as <-. now left. }
  match goal with
  | |- context [classify_text_type ?sp font_stats] =>
      destruct (classify_text_type_cases sp font_stats)
        as [Hc|[Hc|[Hc|Hc]]]; rewrite Hc
  end;
    (destruct (block_bbox block) as [bbox|]; cbn [getitem bind];
     [|discriminate]);
    intros H; injection H as <-; right; eexists; (split; [reflexivity|]);
    unfold entry_ok, level_ok;
    cbn [sec_content sec_type sec_level sec_font font_color sec_page];
    repeat split; auto; try exact Ht; discriminate.
Qed.

Lemma process_image_block_entry block page_num res res' :
  _process_image_block block page_num res = Ok res' ->
  exists s, res' = append_section res s
            /\ sec_page s = page_num /\ entry_ok s /\ sec_type s = image.
Proof.
  unfold _process_image_block.
  destruct (block_bbox block) as [bbox|]; cbn [getitem bind]; [|discriminate].
  intros H. injection H as <-. eexists. split; [reflexivity|].
  unfold entry_ok, level_ok. cbn. repeat split.
Qed.

(** What one page appends: entries of that page, at most one per
    block. *)
Lemma process_blocks_added blocks page_num font_stats res :
  exists added,
    fst (process_blocks blocks page_num font_stats res) = extend res added
    /\ Forall (fun s => sec_page s = page_num /\ entry_ok s) added
    /\ (List.length added <= List.length blocks)%nat.
Proof.
  revert res. induction blocks as [|b blocks IH]; intros res;
    cbn [process_blocks].
  - exists []. rewrite extend_nil. cbn. auto.
  - destruct (process_block b page_num font_stats res) as [res1|e] eqn:E.
    2:{ exists []. cbn. rewrite extend_nil. repeat split; auto. lia. }
    assert (Hone : exists a, res1 = extend res a
                     /\ Forall (fun s => sec_page s = page_num /\ entry_ok s) a
                     /\ (List.length a <= 1)%nat).
    { unfold process_block in E. destruct (block_type b =? 0).
      - apply process_text_block_entry in E.
        destruct E as [->|[s [-> [Hp [Hok _]]]]].
        + exists []. rewrite extend_nil. cbn. auto.
        + exists [s]. cbn. repeat split; auto.
      - destruct (block_type b =? 1).
        + apply process_image_block_entry in E.
          destruct E as [s [-> [Hp [Hok _]]]].
          exists [s]. cbn. repeat split; auto.
        + injection E as <-. exists []. rewrite extend_nil. cbn. auto. }
    destruct Hone as [a [-> [Ha Hla]]].
    destruct (IH (extend res a)) as [a' [-> [Ha' Hla']]].
    exists (a ++ a')%list. rewrite extend_extend. split; [reflexivity|].
    split; [apply Forall_app; auto|]. rewrite length_app. cbn. lia.
Qed.

Lemma process_page_added page page_num font_stats res :
  exists added,
    process_page page page_num font_stats res = extend res added
    /\ Forall (fun s => sec_page s = page_num /\ entry_ok s) added
    /\ (List.length added <= page_block_count (Ok page))%nat.
Proof.
  unfold process_page, page_try, page_block_count.
  destruct (get_text_blocks page) as [blocks|e].
  - apply process_blocks_added.
  - exists []. cbn. rewrite extend_nil. auto.
Qed.

Lemma StronglySorted_app {A : Type} (R : A -> A -> Prop) (l1 l2 : list A) :
  StronglySorted R l1 -> StronglySorted R l2 ->
  (forall x y, In x l1 -> In y l2 -> R x y) ->
  StronglySorted R (l1 ++ l2).
Proof.
  intros H1 H2 H. induction H1 as [|x l1 Hs IH Hall]; cbn; [exact H2|].
  constructor.
  - apply IH. intros a b Ha Hb. apply H; [now right|exact Hb].
  - apply Forall_app. split; [exact Hall|].
    apply Forall_forall. intros y Hy. apply H; [now left|exact Hy].
Qed.

Lemma StronglySorted_constant (c : nat) (l : list nat) :
  Forall (fun x => x = c) l -> StronglySorted le l.
Proof.
  induction 1 as [|x l Hx Hall IH]; constructor; [exact IH|].
  subst x. apply Forall_forall. intros y Hy.
  rewrite Forall_forall in Hall. rewrite (Hall y Hy). lia.
Qed.

(** What the loop over the pages [k .. k+m-1] appends. *)
Lemma page_loop_added doc font_stats (m k : nat) res final :
  page_loop doc font_stats (seq k m) res = Ok final ->
  (k + m <= page_count doc)%nat ->
  exists added,
    final = extend res added
    /\ Forall (fun s => (k < sec_page s <= k + m)%nat /\ entry_ok s) added
    /\ StronglySorted le (map sec_page added)
    /\ (List.length added
        <= list_sum (map page_block_count
                         (firstn m (skipn k (doc_pages doc)))))%nat.
Proof.
  revert k res. induction m as [|m IH]; intros k res; cbn [seq page_loop].
  - intros H _. injection H as <-. exists []. rewrite extend_nil. cbn.
    repeat split; auto. constructor.
  - intros H Hk. unfold load_page in H.
    destruct (nth_error (doc_pages doc) k) as [p|] eqn:En.
    2:{ apply nth_error_None in En. unfold page_count in Hk. lia. }
    rewrite (skipn_nth_error _ _ _ En). cbn [firstn map list_sum].
    destruct p as [page|e]; cbn [bind] in H; [|discriminate].
    destruct (process_page_added page (k + 1) font_stats res)
      as [a [Ha [Hfa Hla]]].
    rewrite Ha in H. apply IH in H; [|lia].
    destruct H as [a' [-> [Hfa' [Hs' Hla']]]].
    exists (a ++ a')%list. rewrite extend_extend. split; [reflexivity|].
    split; [|split].
    + apply Forall_app. split.
      * eapply Forall_impl; [|exact Hfa]. cbn. intros s [Hp Hok].
        split; [lia|exact Hok].
      * eapply Forall_impl; [|exact Hfa']. cbn. intros s [Hp Hok].
        split; [lia|exact Hok].
    + rewrite map_app. apply StronglySorted_app; [|exact Hs'|].
      * apply (StronglySorted_constant (k + 1)).
        rewrite Forall_map. eapply Forall_impl; [|exact Hfa].
        cbn. tauto.
      * intros x y Hx Hy. apply in_map_iff in Hx, Hy.
        destruct Hx as [s [<- Hs]]. destruct Hy as [t [<- Ht]].
        rewrite Forall_forall in Hfa, Hfa'.
        destruct (Hfa s Hs) as [Hps _]. destruct (Hfa' t Ht) as [Hpt _]. lia.
    + rewrite length_app. unfold list_sum in *. cbn [fold_right]. lia.
Qed.

Lemma extract_try_sections version clock doc pdf_path r :
  extract_try version clock (Ok doc) pdf_path = Ok r ->
  Forall (fun s => (0 < sec_page s <= page_count doc)%nat /\ entry_ok s)
         (sections r)
  /\ StronglySorted le (map sec_page (sections r))
  /\ (List.length (sections r) <= doc_block_count doc)%nat
  /\ total_sections (processing_info r) = List.length (sections r)
  /\ meta_pageCount (metadata r) = page_count doc.
Proof.
  unfold extract_try. cbn [bind].
  destruct (analyze_font_statistics doc 5) as [fs|e]; cbn [bind];
    [|discriminate].
  destruct (page_loop doc fs _ _) as [res1|e] eqn:El; cbn [bind];
    [|discriminate].
  destruct (doc_close doc) as [u|e]; cbn [bind]; [|discriminate].
  intros H. injection H as <-.
  apply page_loop_added in El; [|lia].
  destruct El as [added [-> [Hf [Hs Hl]]]].
  cbn [finalize sections extend with_outline initial_result app
       processing_info total_sections metadata meta_pageCount].
  split; [|split; [exact Hs|split; [|split; reflexivity]]].
  - eapply Forall_impl; [|exact Hf]. cbn. intros s [Hp Hok].
    split; [lia|exact Hok].
  - unfold doc_block_count. cbn [skipn] in Hl.
    unfold page_count in Hl. now rewrite firstn_all in Hl.
Qed.

(** Every entry of a returned result lies on a page of the document
    (counted from 1), has non-empty content, carries a level exactly when
    it is a heading (then 1 or 2), and carries the sentinel font when it
    is an image. *)
Theorem extracted_sections_well_formed (version : string) (clock : Clock)
    (opened : result Document) (pdf_path : Path) :
  let r := extract_pdf_structure version clock opened pdf_path in
  Forall (fun s =>
            (1 <= sec_page s <= meta_pageCount (metadata r))%nat
            /\ entry_ok s)
         (sections r).
Proof.
  cbn zeta. unfold extract_pdf_structure.
  destruct (extract_try version clock opened pdf_path) as [r|e] eqn:E;
    [|constructor].
  destruct opened as [doc|e]; [|discriminate].
  destruct (extract_try_sections _ _ _ _ _ E) as [Hf [_ [_ [_ Hpc]]]].
  rewrite Hpc. eapply Forall_impl; [|exact Hf]. cbn. intros s [Hp Hok].
  split; [lia|exact Hok].
Qed.

(** The entries of a returned result are in page order. *)
Theorem extracted_sections_in_page_order (version : string) (clock : Clock)
    (opened : result Document) (pdf_path : Path) :
  StronglySorted le
    (map sec_page
         (sections (extract_pdf_structure version clock opened pdf_path))).
Proof.
  unfold extract_pdf_structure.
  destruct (extract_try version clock opened pdf_path) as [r|e] eqn:E;
    [|constructor].
  destruct opened as [doc|e]; [|discriminate].
  now destruct (extract_try_sections _ _ _ _ _ E) as [_ [Hs _]].
Qed.

(** In every returned result [total_sections] is the number of entries,
    which is at most the number of blocks the decoder yields; the file
    name is the name of the input; [pageCount] is the document's page
    count on success and 0 otherwise. *)
Theorem extracted_result_counts (version : string) (clock : Clock)
    (opened : result Document) (pdf_path : Path) :
  let r := extract_pdf_structure version clock opened pdf_path in
  total_sections (processing_info r) = List.length (sections r)
  /\ filename r = path_name pdf_path
  /\ match opened, extract_try version clock opened pdf_path with
     | Ok doc, Ok _ =>
         (List.length (sections r) <= doc_block_count doc)%nat
         /\ meta_pageCount (metadata r) = page_count doc
     | _, _ =>
         sections r = [] /\ meta_pageCount (metadata r) = 0%nat
     end.
Proof.
  cbn zeta. unfold extract_pdf_structure.
  destruct (extract_try version clock opened pdf_path) as [r|e] eqn:E.
  - destruct opened as [doc|e]; [|discriminate].
    destruct (extract_try_sections _ _ _ _ _ E) as [_ [_ [Hl [Ht Hpc]]]].
    split; [exact Ht|]. split; [|rewrite E; now split].
    clear - E. unfold extract_try in E. cbn [bind] in E.
    destruct (analyze_font_statistics doc 5) as [fs|e]; cbn [bind] in E;
      [|discriminate].
    destruct (page_loop doc fs _ _) as [res1|e] eqn:El; cbn [bind] in E;
      [|discriminate].
    destruct (doc_close doc) as [u|e]; cbn [bind] in E; [|discriminate].
    injection E as <-. apply page_loop_extend in El.
    destruct El as [added ->]. reflexivity.
  - destruct opened as [doc|e']; [rewrite E|]; cbn; auto.
Qed.

(** ** The content of a text entry *)

Lemma lstrip_head_id (s : string) : head_nonspace s -> lstrip s = s.
Proof.
  destruct s as [|c s]; cbn; [reflexivity|]. intros H. now rewrite H.
Qed.

Lemma rstrip_rstrip (s : string) : rstrip (rstrip s) = rstrip s.
Proof.
  induction s as [|c s IH]; cbn [rstrip]; [reflexivity|].
  destruct (rstrip s) as [|d t] eqn:E.
  - destruct (is_space c) eqn:Ec; cbn [rstrip]; [reflexivity|].
    now rewrite Ec.
  - cbn [rstrip]. cbn [rstrip] in IH. now rewrite IH.
Qed.

(** Trimming twice is trimming once. *)
Lemma strip_strip (s : string) : strip (strip s) = strip s.
Proof.
  unfold strip at 1. rewrite (lstrip_head_id _ (strip_head s)).
  unfold strip. apply rstrip_rstrip.
Qed.

Lemma rstrip_app (a b : string) :
  rstrip b = b -> truthy b = true -> rstrip (a ++ b) = (a ++ b).
Proof.
  intros Hb Ht. induction a as [|c a IH]; cbn [append rstrip]; [exact Hb|].
  rewrite IH. destruct (a ++ b) as [|d t] eqn:E; [|reflexivity].
  destruct a; cbn in E; [subst b|]; discriminate.
Qed.

Lemma trimmed_part_strip (s : string) :
  truthy (strip s) = true -> trimmed_part (strip s).
Proof.
  intros H. split; [exact H|]. split; [apply strip_head|].
  unfold strip. apply rstrip_rstrip.
Qed.

Lemma join_cons (sep p q : string) (rest : list string) :
  join sep (p :: q :: rest) = p ++ sep ++ join sep (q :: rest).
Proof. reflexivity. Qed.

Lemma append_assoc (a b d : string) : (a ++ b ++ d) = ((a ++ b) ++ d).
Proof.
  induction a as [|x a IH]; cbn; [reflexivity|]. now rewrite IH.
Qed.

Lemma join_trimmed (p : string) (rest : list string) :
  Forall trimmed_part (p :: rest) -> trimmed_part (join " " (p :: rest)).
Proof.
  revert p. induction rest as [|q rest IH]; intros p H.
  - now inversion H.
  - inversion H as [|? ? [Hp [Hh _]] Hrest]; subst.
    destruct (IH q Hrest) as [Ht [_ Hr]].
    rewrite join_cons. destruct p as [|c p]; [discriminate|].
    split; [reflexivity|]. split; [exact Hh|].
    rewrite append_assoc. now apply rstrip_app.
Qed.

Lemma join_trimmed_strip (p : string) (rest : list string) :
  Forall trimmed_part (p :: rest) ->
  strip (join " " (p :: rest)) = join " " (p :: rest)
  /\ truthy (join " " (p :: rest)) = true.
Proof.
  intros H. destruct (join_trimmed p rest H) as [Ht [Hh Hr]].
  split; [|exact Ht]. unfold strip. now rewrite (lstrip_head_id _ Hh).
Qed.

(** [_process_text_block] in closed form: the second emptiness test never
    fires and the final trimming changes nothing. *)
Lemma process_text_block_closed_form block page_num font_stats res :
  _process_text_block block page_num font_stats res
  = match block_lines block with
    | None => Raise (KeyError "lines")
    | Some lines =>
        match filter nonblank (block_spans lines) with
        | [] => Ok res
        | _ :: _ =>
            match block_bbox block with
            | None => Raise (KeyError "bbox")
            | Some bbox =>
                Ok (append_section res
                      (text_entry lines page_num bbox font_stats))
            end
        end
    end.
Proof.
  unfold _process_text_block.
  destruct (block_lines block) as [lines|]; cbn [getitem bind];
    [|reflexivity].
  rewrite scan_lines_spans.
  pose proof (scan_parts (block_spans lines) scan_init) as Hparts.
  cbn [block_text_parts scan_init app] in Hparts. rewrite Hparts.
  unfold text_entry, block_content.
  destruct (filter nonblank (block_spans lines)) as [|q qs] eqn:Ef;
    [reflexivity|].
  cbn [map].
  assert (Hall : Forall trimmed_part
                   (strip (span_text q)
                    :: map (fun sp => strip (span_text sp)) qs)).
  { change (Forall trimmed_part
              (map (fun sp => strip (span_text sp)) (q :: qs))).
    apply Forall_map. apply Forall_forall. intros sp Hsp.
    apply trimmed_part_strip. rewrite <- Ef in Hsp.
    now apply filter_In in Hsp. }
  destruct (join_trimmed_strip _ _ Hall) as [Hs Ht].
  rewrite Hs, Ht. cbn [negb].
  destruct (classify_text_type _ font_stats) as [text_type level].
  destruct (block_bbox block); reflexivity.
Qed.

(** A text block that has its lines, its bounding box and at least one
    non-blank span appends one entry whose content is the trimmed texts
    of the non-blank spans joined by single spaces; that content is
    non-empty and has no white space at either end. *)
Theorem text_block_content (block : Block) (lines : list Line) (bbox : BBox)
    (page_num : nat) (font_stats : FontStats) (res : DocumentResult) :
  block_lines block = Some lines ->
  block_bbox block = Some bbox ->
  filter nonblank (block_spans lines) <> [] ->
  exists s,
    _process_text_block block page_num font_stats res
    = Ok (append_section res s)
    /\ sec_content s = block_content lines
    /\ strip (sec_content s) = sec_content s
    /\ truthy (sec_content s) = true.
Proof.
  intros Hlines Hbbox Hne. rewrite process_text_block_closed_form.
  rewrite Hlines, Hbbox.
  destruct (filter nonblank (block_spans lines)) as [|q qs] eqn:Ef;
    [congruence|].
  exists (text_entry lines page_num bbox font_stats).
  split; [reflexivity|].
  assert (Hc : sec_content (text_entry lines page_num bbox font_stats)
               = block_content lines).
  { unfold text_entry. destruct (classify_text_type _ font_stats).
    reflexivity. }
  rewrite Hc. split; [reflexivity|].
  unfold block_content. rewrite Ef. cbn [map].
  apply join_trimmed_strip.
  change (Forall trimmed_part
            (map (fun sp => strip (span_text sp)) (q :: qs))).
  apply Forall_map. apply Forall_forall. intros sp Hsp.
  apply trimmed_part_strip. rewrite <- Ef in Hsp.
  now apply filter_In in Hsp.
Qed.

Lemma text_block_content_witness :
  exists s,
    _process_text_block heading_block 1 default_font_stats empty_result
    = Ok (append_section empty_result s)
    /\ sec_content s = "Results and discussion (draft)"
    /\ strip (sec_content s) = sec_content s
    /\ truthy (sec_content s) = true.
Proof.
  apply (text_block_content heading_block
           [mkLine [mkSpan " Results " 18 16 "Helvetica-Bold";
                    mkSpan "  " 30 0 "Symbol"];
            mkLine [mkSpan "and discussion" 18 0 "Helvetica";
                    mkSpan "(draft)" 8 2 "Helvetica-Oblique"]]
           (72, 90, 400, 130)%float 1%nat default_font_stats empty_result).
  - reflexivity.
  - reflexivity.
  - discriminate.
Defined.

(** For a block whose lines and spans carry all their keys, as the
    decoder builds them, [_process_text_block] raises exactly in two
    cases: the key ["lines"] of the block is missing, or the block has a
    non-blank span and its key ["bbox"] is missing.  A blank block needs
    no bounding box. *)
Theorem text_block_failures (block : Block) (page_num : nat)
    (font_stats : FontStats) (res : DocumentResult) :
  match _process_text_block block page_num font_stats res with
  | Raise e =>
      (block_lines block = None /\ e = KeyError "lines")
      \/ (exists lines,
             block_lines block = Some lines
             /\ filter nonblank (block_spans lines) <> []
             /\ block_bbox block = None
             /\ e = KeyError "bbox")
  | Ok res' =>
      exists lines,
        block_lines block = Some lines
        /\ ((filter nonblank (block_spans lines) = [] /\ res' = res)
            \/ (exists bbox,
                   filter nonblank (block_spans lines) <> []
                   /\ block_bbox block = Some bbox
                   /\ res'
                      = append_section res
                          (text_entry lines page_num bbox font_stats)))
  end.
Proof.
  rewrite process_text_block_closed_form.
  destruct (block_lines block) as [lines|]; [|now left].
  destruct (filter nonblank (block_spans lines)) as [|q qs] eqn:Ef.
  { exists lines. split; [reflexivity|]. left. now rewrite Ef. }
  destruct (block_bbox block) as [bbox|].
  - exists lines. split; [reflexivity|]. right. exists bbox.
    rewrite Ef. repeat split. discriminate.
  - right. exists lines. rewrite Ef. repeat split. discriminate.
Qed.

(** ** A failing block inside a page *)

Lemma process_blocks_app pre post page_num font_stats res :
  process_blocks (pre ++ post) page_num font_stats res
  = match process_blocks pre page_num font_stats res with
    | (res1, None) => process_blocks post page_num font_stats res1
    | (res1, Some e) => (res1, Some e)
    end.
Proof.
  revert res. induction pre as [|b pre IH]; intros res; cbn; [reflexivity|].
  destruct (process_block b page_num font_stats res); [apply IH|reflexivity].
Qed.

(** When a block of a page raises, the entries of the blocks before it
    stay in the result and the blocks after it are not processed. *)
Theorem failing_block_cuts_page (page : Page) (pre post : list Block)
    (bad : Block) (page_num : nat) (font_stats : FontStats)
    (res res1 : DocumentResult) (e : exn) :
  get_text_blocks page = Ok (pre ++ bad :: post)%list ->
  process_blocks pre page_num font_stats res = (res1, None) ->
  process_block bad page_num font_stats res1 = Raise e ->
  page_try page page_num font_stats res = (res1, Some e)
  /\ process_page page page_num font_stats res = res1
  /\ process_page page page_num font_stats res
     = process_page (mkPage (Ok pre)) page_num font_stats res.
Proof.
  intros Hblocks Hpre Hbad.
  assert (H : page_try page page_num font_stats res = (res1, Some e)).
  { unfold page_try. rewrite Hblocks, process_blocks_app, Hpre.
    cbn. now rewrite Hbad. }
  split; [exact H|]. unfold process_page. rewrite H. split; [reflexivity|].
  unfold page_try. cbn. now rewrite Hpre.
Qed.

Lemma failing_block_cuts_page_witness :
  let page := mkPage (Ok [body_block; boxless_image_block; body_block]) in
  page_try page 2 default_font_stats empty_result
  = (process_page (mkPage (Ok [body_block])) 2 default_font_stats
       empty_result,
     Some (KeyError "bbox"))
  /\ process_page page 2 default_font_stats empty_result
     = process_page (mkPage (Ok [body_block])) 2 default_font_stats
         empty_result
  /\ process_page page 2 default_font_stats empty_result
     = process_page (mkPage (Ok [body_block])) 2 default_font_stats
         empty_result.
Proof.
  apply (failing_block_cuts_page
           (mkPage (Ok [body_block; boxless_image_block; body_block]))
           [body_block] [body_block] boxless_image_block 2%nat
           default_font_stats empty_result
           (process_page (mkPage (Ok [body_block])) 2 default_font_stats
              empty_result)
           (KeyError "bbox")).
  - reflexivity.
  - reflexivity.
  - reflexivity.
Defined.

(** ** Failures the per-page handler does not see *)

Lemma sample_loop_unreadable doc (m a k : nat) acc page e :
  (a <= k < a + m)%nat ->
  nth_error (doc_pages doc) k = Some (Ok page) ->
  get_text_blocks page = Raise e ->
  exists e', sample_loop doc acc (seq a m) = Raise e'.
Proof.
  revert a acc. induction m as [|m IH]; intros a acc Hk Hpage Htext;
    [lia|].
  cbn [seq sample_loop].
  destruct (Nat.eq_dec a k) as [->|Hne].
  - unfold load_page. rewrite Hpage. cbn [bind]. rewrite Htext.
    eexists. reflexivity.
  - destruct (load_page doc a) as [p|e1]; cbn [bind];
      [|eexists; reflexivity].
    destruct (get_text_blocks p) as [blocks|e1]; cbn [bind];
      [|eexists; reflexivity].
    destruct (sample_blocks acc blocks) as [acc1|e1]; cbn [bind];
      [|eexists; reflexivity].
    apply IH; [lia|assumption|assumption].
Qed.

(** The text of one of the first five pages cannot be read: profiling has
    no handler of its own, so the whole document gets the error result,
    although the per-page handler of the main loop would skip the page
    (it leaves the result as it is). *)
Theorem unreadable_sampled_page_is_fatal (version : string) (clock : Clock)
    (doc : Document) (pdf_path : Path) (k : nat) (page : Page) (e : exn) :
  (k < 5)%nat ->
  nth_error (doc_pages doc) k = Some (Ok page) ->
  get_text_blocks page = Raise e ->
  (exists e',
      extract_pdf_structure version clock (Ok doc) pdf_path
      = error_result version clock pdf_path e')
  /\ (forall page_num font_stats res,
         process_page page page_num font_stats res = res).
Proof.
  intros Hk Hpage Htext. split.
  - assert (Hlen : (k < page_count doc)%nat).
    { unfold page_count. apply nth_error_Some. congruence. }
    destruct (sample_loop_unreadable doc (Nat.min 5 (page_count doc)) 0 k
                ([], []) page e) as [e' He']; [lia|assumption|assumption|].
    exists e'. unfold extract_pdf_structure, extract_try. cbn [bind].
    unfold analyze_font_statistics, sampled. rewrite He'. reflexivity.
  - intros page_num font_stats res. unfold process_page, page_try.
    now rewrite Htext.
Qed.

Lemma unreadable_sampled_page_is_fatal_witness :
  let doc :=
    mkDocument []
      [Ok (mkPage (Ok [body_block]));
       Ok (mkPage (Raise (RuntimeError "bad content stream")))]
      (Ok []) (Ok tt) in
  (exists e',
      extract_pdf_structure "1.26.0" clock0 (Ok doc) report_pdf
      = error_result "1.26.0" clock0 report_pdf e')
  /\ (forall page_num font_stats res,
         process_page (mkPage (Raise (RuntimeError "bad content stream")))
           page_num font_stats res = res).
Proof.
  apply (unreadable_sampled_page_is_fatal "1.26.0" clock0
           (mkDocument []
              [Ok (mkPage (Ok [body_block]));
               Ok (mkPage (Raise (RuntimeError "bad content stream")))]
              (Ok []) (Ok tt))
           report_pdf 1%nat
           (mkPage (Raise (RuntimeError "bad content stream")))
           (RuntimeError "bad content stream")).
  - lia.
  - reflexivity.
  - reflexivity.
Defined.

(** ** The outline *)

Lemma sample_loop_with_toc doc toc acc page_nums :
  sample_loop (with_toc doc toc) acc page_nums = sample_loop doc acc page_nums.
Proof.
  revert acc. induction page_nums as [|n rest IH]; intros acc; cbn;
    [reflexivity|].
  change (load_page (with_toc doc toc) n) with (load_page doc n).
  destruct (load_page doc n) as [p|e]; cbn; [|reflexivity].
  destruct (get_text_blocks p) as [bs|e]; cbn; [|reflexivity].
  destruct (sample_blocks acc bs) as [acc1|e]; cbn; [apply IH|reflexivity].
Qed.

Lemma page_loop_with_toc doc toc font_stats page_nums res :
  page_loop (with_toc doc toc) font_stats page_nums res
  = page_loop doc font_stats page_nums res.
Proof.
  revert res. induction page_nums as [|n rest IH]; intros res; cbn;
    [reflexivity|].
  change (load_page (with_toc doc toc) n) with (load_page doc n).
  destruct (load_page doc n) as [p|e]; cbn; [apply IH|reflexivity].
Qed.

(** A bookmark table that cannot be read is the same as an empty one:
    the result is the one of the document without bookmarks, and its
    outline is empty. *)
Theorem outline_failure_is_not_fatal (version : string) (clock : Clock)
    (doc : Document) (pdf_path : Path) (e : exn) :
  get_toc doc = Raise e ->
  extract_pdf_structure version clock (Ok doc) pdf_path
  = extract_pdf_structure version clock (Ok (with_toc doc (Ok []))) pdf_path
  /\ outline (extract_pdf_structure version clock (Ok doc) pdf_path) = [].
Proof.
  intros Htoc.
  assert (Heq : extract_try version clock (Ok doc) pdf_path
                = extract_try version clock (Ok (with_toc doc (Ok [])))
                    pdf_path).
  { assert (Ha : analyze_font_statistics (with_toc doc (Ok [])) 5
                 = analyze_font_statistics doc 5).
    { unfold analyze_font_statistics, sampled.
      change (page_count (with_toc doc (Ok []))) with (page_count doc).
      now rewrite sample_loop_with_toc. }
    unfold extract_try. cbn [bind]. rewrite Ha.
    destruct (analyze_font_statistics doc 5) as [fs|e']; cbn [bind];
      [|reflexivity].
    change (page_count (with_toc doc (Ok []))) with (page_count doc).
    rewrite page_loop_with_toc.
    unfold extract_outline. cbn [get_toc with_toc]. rewrite Htoc.
    reflexivity. }
  unfold extract_pdf_structure. rewrite <- Heq. split; [reflexivity|].
  destruct (extract_try version clock (Ok doc) pdf_path) as [r|e'] eqn:E;
    [|reflexivity].
  unfold extract_try in E. cbn [bind] in E.
  destruct (analyze_font_statistics doc 5) as [fs|e']; cbn [bind] in E;
    [|discriminate].
  destruct (page_loop doc fs _ _) as [res1|e'] eqn:El; cbn [bind] in E;
    [|discriminate].
  destruct (doc_close doc) as [u|e']; cbn [bind] in E; [|discriminate].
  injection E as <-. apply page_loop_extend in El.
  destruct El as [added ->]. cbn. unfold extract_outline. now rewrite Htoc.
Qed.

Lemma outline_failure_is_not_fatal_witness :
  let doc := with_toc three_page_doc (Raise (RuntimeError "broken outline")) in
  extract_pdf_structure "1.26.0" clock0 (Ok doc) report_pdf
  = extract_pdf_structure "1.26.0" clock0 (Ok (with_toc doc (Ok [])))
      report_pdf
  /\ outline (extract_pdf_structure "1.26.0" clock0 (Ok doc) report_pdf) = [].
Proof.
  apply (outline_failure_is_not_fatal "1.26.0" clock0
           (with_toc three_page_doc (Raise (RuntimeError "broken outline")))
           report_pdf (RuntimeError "broken outline")).
  reflexivity.
Defined.

(** ** The pooled path of the batch driver *)

Lemma successes_le env output_dir files :
  (successes env output_dir files <= List.length files)%nat.
Proof. unfold successes. apply filter_length_le. Qed.

Lemma sequential_successes env output_dir files c :
  sequential env output_dir files c
  = (c + successes env output_dir files)%nat.
Proof. apply sequential_count. Qed.

(** The futures are read in order until the first one that raises. *)
Lemma collect_until env pool output_dir files (k i c : nat) e :
  (forall j, (j < k)%nat -> future_error pool (i + j) = None) ->
  future_error pool (i + k) = Some e ->
  (k < List.length files)%nat ->
  collect env pool output_dir files i c
  = ((c + successes env output_dir (firstn k files))%nat, Some e).
Proof.
  revert k i c. induction files as [|f files IH]; intros k i c Hbefore Hat Hk;
    [cbn in Hk; lia|].
  cbn [collect]. destruct k as [|k].
  - rewrite Nat.add_0_r in Hat. rewrite Hat. cbn. now rewrite Nat.add_0_r.
  - pose proof (Hbefore 0%nat ltac:(lia)) as H0.
    rewrite Nat.add_0_r in H0. rewrite H0.
    rewrite (IH k (S i)).
    + unfold successes, count_if. cbn [firstn filter].
      destruct (process_single_pdf env f output_dir); cbn [List.length];
        f_equal; lia.
    + intros j Hj. replace (S i + j)%nat with (i + S j)%nat by lia.
      apply Hbefore. lia.
    + replace (S i + k)%nat with (i + S k)%nat by lia. exact Hat.
    + cbn in Hk. lia.
Qed.

Lemma collect_le env pool output_dir files i c :
  (fst (collect env pool output_dir files i c) <= c + List.length files)%nat.
Proof.
  revert i c. induction files as [|f files IH]; intros i c; cbn [collect].
  - cbn. lia.
  - destruct (future_error pool i); [cbn; lia|].
    specialize (IH (S i) (count_if (process_single_pdf env f output_dir) c)).
    unfold count_if in *. cbn [List.length].
    destruct (process_single_pdf env f output_dir); lia.
Qed.

(** With two or more files and a pool whose future [k] is the first to
    raise, the successes counted before it are kept and the sequential
    loop then counts every file again: the tally is the successes among
    the first [k] files plus the successes among all of them. *)
Theorem broken_pool_counts_twice (env : Env) (output_dir : string)
    (pdf_files : list Path) (pool : Pool) (k : nat) (e : exn) :
  (2 <= List.length pdf_files)%nat ->
  make_pool env (max_workers env) = Ok pool ->
  (forall j, (j < k)%nat -> future_error pool j = None) ->
  future_error pool k = Some e ->
  (k < List.length pdf_files)%nat ->
  process_pdfs env output_dir pdf_files
  = Some (successes env output_dir (firstn k pdf_files)
          + successes env output_dir pdf_files)%nat.
Proof.
  intros Hlen Hpool Hbefore Hat Hk.
  destruct pdf_files as [|f [|g files]]; [cbn in Hlen; lia..|].
  unfold process_pdfs. rewrite Hpool.
  rewrite (collect_until env pool output_dir (f :: g :: files) k 0 0 e);
    auto.
  now rewrite sequential_successes.
Qed.

Lemma broken_pool_counts_twice_witness :
  process_pdfs broken_pool_env "output" two_files = Some 3%nat
  /\ List.length two_files = 2%nat.
Proof.
  split; [|reflexivity].
  apply (broken_pool_counts_twice broken_pool_env "output" two_files
           (mkPool (fun i => if (i =? 1)%nat
                             then Some (RuntimeError "worker died")
                             else None))
           1%nat (RuntimeError "worker died")).
  - cbn. lia.
  - reflexivity.
  - intros j Hj. assert (j = 0%nat) as -> by lia. reflexivity.
  - reflexivity.
  - cbn. lia.
Defined.

(** The tally never exceeds twice the number of files, and never the
    number of files when no future raises. *)
Theorem tally_bounds (env : Env) (output_dir : string)
    (pdf_files : list Path) :
  match process_pdfs env output_dir pdf_files with
  | None => pdf_files = []
  | Some n =>
      (n <= 2 * List.length pdf_files)%nat
      /\ match make_pool env (max_workers env) with
         | Ok pool =>
             (forall j, future_error pool j = None) ->
             n = successes env output_dir pdf_files
         | Raise _ => n = successes env output_dir pdf_files
         end
  end.
Proof.
  destruct pdf_files as [|f [|g files]]; [reflexivity| |].
  - cbn [process_pdfs]. split.
    + unfold count_if. destruct (process_single_pdf env f output_dir);
        cbn; lia.
    + assert (H : count_if (process_single_pdf env f output_dir) 0
                  = successes env output_dir [f]).
      { unfold count_if, successes. cbn.
        destruct (process_single_pdf env f output_dir); reflexivity. }
      destruct (make_pool env (max_workers env)); auto.
  - unfold process_pdfs.
    destruct (make_pool env (max_workers env)) as [pool|e].
    + destruct (collect env pool output_dir (f :: g :: files) 0 0)
        as [c [e|]] eqn:Ec.
      * pose proof (collect_le env pool output_dir (f :: g :: files) 0 0)
          as Hc. rewrite Ec in Hc. cbn [fst] in Hc.
        rewrite sequential_successes.
        pose proof (successes_le env output_dir (f :: g :: files)).
        split; [lia|]. intros Hhealthy.
        rewrite collect_healthy in Ec by exact Hhealthy. discriminate.
      * pose proof (collect_le env pool output_dir (f :: g :: files) 0 0)
          as Hc. rewrite Ec in Hc. cbn [fst] in Hc.
        split; [lia|]. intros Hhealthy.
        assert (Hseq : c = sequential env output_dir (f :: g :: files) 0)
          by (rewrite collect_healthy in Ec by exact Hhealthy; congruence).
        rewrite Hseq, sequential_successes. reflexivity.
    + rewrite sequential_successes.
      pose proof (successes_le env output_dir (f :: g :: files)).
      split; [lia|reflexivity].
Qed.

(** ** Bounds on the font statistics *)

Lemma SFltb_irrefl x : SFltb x x = false.
Proof.
  unfold SFltb, SFcompare. destruct x as [s|s| |s m e]; try destruct s;
    try reflexivity; rewrite Z.compare_refl;
    change (Pos.compare_cont Eq m m) with (Pos.compare m m);
    now rewrite Pos.compare_refl.
Qed.

Lemma flt_irrefl (a : float) : (a <? a)%float = false.
Proof. rewrite ltb_spec. apply SFltb_irrefl. Qed.

(** The running maximum is never below an item already seen. *)
Lemma fold_max_spec (l seen : list float) (m0 : float) :
  (forall y, In y seen -> (m0 <? y)%float = false) ->
  let m := fold_left (fun m y => if (m <? y)%float then y else m) l m0 in
  In m (m0 :: l)
  /\ (forall y, In y seen -> (m <? y)%float = false)
  /\ (forall y, In y l -> (m <? y)%float = false).
Proof.
  revert seen m0. induction l as [|z l IH]; intros seen m0 Hseen;
    cbn [fold_left].
  - split; [now left|]. split; [exact Hseen|intros y []].
  - set (m1 := if (m0 <? z)%float then z else m0).
    assert (H1 : forall y, In y (z :: seen) -> (m1 <? y)%float = false).
    { unfold m1. destruct (m0 <? z)%float eqn:E.
      - intros y [<-|Hy]; [apply flt_irrefl|].
        destruct (z <? y)%float eqn:Ezy; [|reflexivity].
        pose proof (flt_trans _ _ _ E Ezy) as Hlt. unfold flt in Hlt.
        rewrite (Hseen y Hy) in Hlt. discriminate.
      - intros y [<-|Hy]; [exact E|now apply Hseen]. }
    destruct (IH (z :: seen) m1 H1) as [Hin [Hs Hl]].
    split; [|split].
    + destruct Hin as [Hin|Hin]; [|right; now right].
      rewrite <- Hin. unfold m1. destruct (m0 <? z)%float;
        [right; now left|now left].
    + intros y Hy. apply Hs. now right.
    + intros y [<-|Hy]; [apply Hs; now left|now apply Hl].
Qed.

(** When the sampled pages are read without error and hold at least one
    span, [max_size] is one of the sampled sizes and no sampled size is
    greater than it. *)
Theorem font_statistics_bounds (doc : Document) (sample_pages : nat)
    (font_sizes bolds : list float) :
  sampled doc sample_pages = Ok (font_sizes, bolds) ->
  font_sizes <> [] ->
  exists stats mx,
    analyze_font_statistics doc sample_pages = Ok stats
    /\ max_size stats = Some mx
    /\ In mx font_sizes
    /\ (forall x, In x font_sizes -> (mx <? x)%float = false).
Proof.
  intros Hs Hne. unfold analyze_font_statistics. rewrite Hs. cbn [bind].
  destruct font_sizes as [|x l]; [congruence|].
  cbn [py_div List.length py_max bind].
  destruct (fold_max_spec l [x] x) as [Hin [Hseen Hrest]].
  { intros y [<-|[]]. apply flt_irrefl. }
  eexists. eexists. split; [reflexivity|]. cbn [max_size].
  split; [reflexivity|]. split; [exact Hin|].
  intros y [<-|Hy]; [apply Hseen; now left|now apply Hrest].
Qed.

Lemma font_statistics_bounds_witness :
  exists stats mx,
    analyze_font_statistics three_page_doc 5 = Ok stats
    /\ max_size stats = Some mx
    /\ In mx [18; 30; 18; 8; 12; 12]%float
    /\ (forall x, In x [18; 30; 18; 8; 12; 12]%float ->
                  (mx <? x)%float = false).
Proof.
  apply (font_statistics_bounds three_page_doc 5%nat
           [18; 30; 18; 8; 12; 12]%float [18]%float).
  - reflexivity.
  - discriminate.
Defined.

(** ** The bold sizes *)







(** * Properties of Challenge 1b *)

(** ** The extracted lines *)

Lemma extract_line_added page_no blocks line :
  exists added,
    extract_line page_no blocks line = Done (blocks ++ added)%list
    /\ Forall (fun b => lb_page b = page_no /\ line_block_ok b) added
    /\ (List.length added <= 1)%nat.
Proof.
  unfold extract_line.
  destruct (truthy (line_text line)) eqn:Ht; cbn [negb].
  - destruct (line_spans line) as [|sp spans] eqn:Es.
    + unfold line_text in Ht. rewrite Es in Ht. discriminate Ht.
    + eexists [_]. split; [reflexivity|]. split; [|cbn; lia].
      constructor; [|constructor]. cbn. split; [reflexivity|].
      split; [exact Ht|]. unfold line_text. apply strip_strip.
  - exists []. rewrite app_nil_r. repeat split; auto.
Qed.

Lemma extract_lines_added page_no blocks lines :
  exists added,
    extract_lines page_no blocks lines = Done (blocks ++ added)%list
    /\ Forall (fun b => lb_page b = page_no /\ line_block_ok b) added.
Proof.
  revert blocks. induction lines as [|line lines IH]; intros blocks; cbn.
  - exists []. rewrite app_nil_r. auto.
  - destruct (extract_line_added page_no blocks line) as [a [-> [Ha _]]].
    cbn. destruct (IH (blocks ++ a)%list) as [a' [-> Ha']].
    exists (a ++ a')%list. rewrite app_assoc. split; [reflexivity|].
    apply Forall_app. auto.
Qed.

(** A block either fails for a missing ["lines"] or appends entries of
    its page. *)
Lemma extract_blk_cases page_no blocks blk :
  extract_blk page_no blocks blk = Failed (Decoder (KeyError "lines"))
  \/ exists added,
       extract_blk page_no blocks blk = Done (blocks ++ added)%list
       /\ Forall (fun b => lb_page b = page_no /\ line_block_ok b) added.
Proof.
  unfold extract_blk. destruct (block_type blk =? 0); cbn [negb].
  - destruct (block_lines blk) as [lines|]; cbn; [|now left].
    right. apply extract_lines_added.
  - right. exists []. rewrite app_nil_r. auto.
Qed.

Lemma extract_blks_cases page_no blocks blks :
  (exists e, extract_blks page_no blocks blks = Failed (Decoder e))
  \/ exists added,
       extract_blks page_no blocks blks = Done (blocks ++ added)%list
       /\ Forall (fun b => lb_page b = page_no /\ line_block_ok b) added.
Proof.
  revert blocks. induction blks as [|blk blks IH]; intros blocks; cbn.
  - right. exists []. rewrite app_nil_r. auto.
  - destruct (extract_blk_cases page_no blocks blk) as [->|[a [-> Ha]]];
      cbn; [left; eauto|].
    destruct (IH (blocks ++ a)%list) as [[e ->]|[a' [-> Ha']]];
      [left; eauto|].
    right. exists (a ++ a')%list. rewrite app_assoc.
    split; [reflexivity|]. apply Forall_app. auto.
Qed.

Lemma extract_pages_cases pages page_no blocks :
  (exists e, extract_pages pages page_no blocks = Failed (Decoder e))
  \/ exists added,
       extract_pages pages page_no blocks = Done (blocks ++ added)%list
       /\ Forall (fun b =>
                    (page_no <= lb_page b < page_no + List.length pages)%nat
                    /\ line_block_ok b) added
       /\ StronglySorted le (map lb_page added).
Proof.
  revert page_no blocks.
  induction pages as [|p pages IH]; intros page_no blocks;
    cbn [extract_pages].
  - right. exists []. rewrite app_nil_r. repeat split; auto. constructor.
  - destruct p as [page|e]; cbn [lift and_then]; [|left; eauto].
    destruct (get_text_blocks page) as [blks|e]; cbn [lift and_then];
      [|left; eauto].
    destruct (extract_blks_cases page_no blocks blks)
      as [[e ->]|[a [-> Ha]]]; cbn [and_then]; [left; eauto|].
    destruct (IH (S page_no) (blocks ++ a)%list)
      as [[e ->]|[a' [-> [Ha' Hs']]]]; [left; eauto|].
    right. exists (a ++ a')%list. rewrite app_assoc.
    split; [reflexivity|]. split.
    + apply Forall_app. split.
      * eapply Forall_impl; [|exact Ha]. cbn. intros b [Hp Hok].
        split; [lia|exact Hok].
      * eapply Forall_impl; [|exact Ha']. cbn. intros b [Hp Hok].
        split; [lia|exact Hok].
    + rewrite map_app. apply StronglySorted_app; [|exact Hs'|].
      * apply (StronglySorted_constant page_no).
        rewrite Forall_map. eapply Forall_impl; [|exact Ha]. cbn. tauto.
      * intros x y Hx Hy. apply in_map_iff in Hx, Hy.
        destruct Hx as [s [<- Hs]]. destruct Hy as [t [<- Ht]].
        rewrite Forall_forall in Ha, Ha'.
        destruct (Ha s Hs) as [Hps _]. destruct (Ha' t Ht) as [Hpt _]. lia.
Qed.

(** [extract_blocks] never raises [IndexError]: a line without spans has
    an empty text and is skipped before its first span is read.  It fails
    only with an exception of the decoder. *)
Theorem extract_blocks_no_index_error (opened : result Document) :
  (exists blocks, extract_blocks opened = Done blocks)
  \/ (exists e, extract_blocks opened = Failed (Decoder e)).
Proof.
  unfold extract_blocks. destruct opened as [doc|e]; cbn; [|right; eauto].
  destruct (extract_pages_cases (doc_pages doc) 1 [])
    as [[e ->]|[a [-> _]]]; [right|left]; eauto.
Qed.

(** The entries [extract_blocks] returns are in page order, on pages
    [1 .. page_count], with a text that is non-empty and has no white
    space at either end. *)
Theorem extract_blocks_entries (doc : Document) (blocks : list LineBlock) :
  extract_blocks (Ok doc) = Done blocks ->
  Forall (fun b => (1 <= lb_page b <= page_count doc)%nat /\ line_block_ok b)
         blocks
  /\ StronglySorted le (map lb_page blocks).
Proof.
  unfold extract_blocks. cbn.
  destruct (extract_pages_cases (doc_pages doc) 1 [])
    as [[e ->]|[a [-> [Ha Hs]]]]; [discriminate|].
  cbn. intros H. injection H as <-. split; [|exact Hs].
  eapply Forall_impl; [|exact Ha]. cbn. unfold page_count.
  intros b [Hp Hok]. split; [lia|exact Hok].
Qed.

Lemma extract_blocks_entries_witness :
  Forall (fun b =>
            (1 <= lb_page b <= page_count three_page_doc)%nat
            /\ line_block_ok b)
         [mkLineBlock 1 18 "Results";
          mkLineBlock 1 18 "and discussion (draft)";
          mkLineBlock 2 12 "Plain body text.";
          mkLineBlock 2 12 "Plain body text."]
  /\ StronglySorted le [1; 1; 2; 2]%nat.
Proof.
  apply (extract_blocks_entries three_page_doc
           [mkLineBlock 1 18 "Results";
            mkLineBlock 1 18 "and discussion (draft)";
            mkLineBlock 2 12 "Plain body text.";
            mkLineBlock 2 12 "Plain body text."]).
  reflexivity.
Defined.

(** ** The output of the pipeline *)

Lemma ingest_blocks_parallel name blocks acc :
  parallel acc -> parallel (fold_left (ingest_block name) blocks acc).
Proof.
  revert acc. induction blocks as [|b blocks IH]; intros acc H; cbn;
    [exact H|].
  apply IH. destruct H as [H1 H2]. unfold parallel, ingest_block. cbn.
  rewrite !length_app. cbn. lia.
Qed.

Lemma ingest_parallel env items acc ing :
  parallel acc -> ingest env items acc = Done ing -> parallel ing.
Proof.
  revert acc. induction items as [|[name pdf_path] items IH]; intros acc Hp;
    cbn.
  - intros H. now injection H as <-.
  - destruct (extract_blocks (open_pdf env (path_str pdf_path)))
      as [blocks|e]; cbn; [|discriminate].
    apply IH. now apply ingest_blocks_parallel.
Qed.

Lemma py_index_in_range {A : Type} (l : list A) (i : Z) :
  in_range (List.length l) i -> exists a, py_index l i = Done a.
Proof.
  unfold in_range, py_index. intros H.
  set (n := Z.of_nat (List.length l)) in *.
  set (j := if i <? 0 then i + n else i).
  assert (Hj : 0 <= j < n).
  { unfold j. destruct (i <? 0) eqn:E; [apply Z.ltb_lt in E|
                                        apply Z.ltb_ge in E]; lia. }
  replace ((0 <=? j) && (j <? n)) with true
    by (symmetry; apply andb_true_iff; split;
        [apply Z.leb_le|apply Z.ltb_lt]; lia).
  destruct (nth_error l (Z.to_nat j)) as [a|] eqn:En; [eauto|].
  apply nth_error_None in En. unfold n in Hj. lia.
Qed.

Lemma py_index_out_of_range {A : Type} (l : list A) (i : Z) :
  ~ in_range (List.length l) i -> py_index l i = Failed IndexError.
Proof.
  unfold in_range, py_index. intros H.
  set (n := Z.of_nat (List.length l)) in *.
  destruct (i <? 0) eqn:E; [apply Z.ltb_lt in E|apply Z.ltb_ge in E].
  - replace ((0 <=? i + n) && (i + n <? n)) with false; [reflexivity|].
    symmetry. apply andb_false_iff. left. apply Z.leb_gt. lia.
  - replace ((0 <=? i) && (i <? n)) with false; [reflexivity|].
    symmetry. apply andb_false_iff. right. apply Z.ltb_ge. lia.
Qed.

Lemma py_index_last {A : Type} (l : list A) (a : A) :
  py_index (l ++ [a]) (-1) = Done a.
Proof.
  unfold py_index. rewrite length_app. cbn [List.length].
  replace (-1 <? 0) with true by reflexivity.
  set (n := Z.of_nat (List.length l + 1)).
  assert (Hn : -1 + n = Z.of_nat (List.length l)) by (unfold n; lia).
  rewrite Hn.
  replace ((0 <=? Z.of_nat (List.length l))
           && (Z.of_nat (List.length l) <? n)) with true
    by (symmetry; apply andb_true_iff; split;
        [apply Z.leb_le|apply Z.ltb_lt]; unfold n; lia).
  rewrite Nat2Z.id, nth_error_app2 by lia.
  now rewrite Nat.sub_diag.
Qed.

Lemma substring_length (n : nat) (s : string) :
  (String.length (substring 0 n s) <= n)%nat.
Proof.
  revert s. induction n as [|n IH]; intros s.
  - destruct s; cbn; lia.
  - destruct s as [|c s]; cbn; [lia|]. specialize (IH s). lia.
Qed.

Lemma candidate_fields env ing rank idx c :
  candidate env ing rank idx = Done c ->
  cand_importance_rank c = rank
  /\ (String.length (cand_section_title c) <= 120)%nat.
Proof.
  unfold candidate.
  destruct (py_index (docs ing) idx); cbn; [|discriminate].
  destruct (py_index (texts ing) idx); cbn; [|discriminate].
  destruct (py_index (pages ing) idx); cbn; [|discriminate].
  destruct (refine env a0); cbn; [|discriminate].
  intros H. injection H as <-. cbn. split; [reflexivity|].
  apply substring_length.
Qed.

Lemma candidates_shape env ing rank ids cands :
  candidates env ing rank ids = Done cands ->
  map cand_importance_rank cands = seq rank (List.length ids)
  /\ Forall (fun c => (String.length (cand_section_title c) <= 120)%nat)
            cands.
Proof.
  revert rank cands. induction ids as [|idx ids IH]; intros rank cands; cbn.
  - intros H. injection H as <-. split; [reflexivity|constructor].
  - destruct (candidate env ing rank idx) as [c|e] eqn:Ec; cbn;
      [|discriminate].
    destruct (candidates env ing (S rank) ids) as [cs|e] eqn:Ecs; cbn;
      [|discriminate].
    intros H. injection H as <-.
    destruct (candidate_fields _ _ _ _ _ Ec) as [Hr Ht].
    destruct (IH _ _ Ecs) as [Hrs Hts]. cbn. rewrite Hr, Hrs.
    split; [reflexivity|]. constructor; assumption.
Qed.

Lemma Forall_firstn_keep {A : Type} (P : A -> Prop) (n : nat) (l : list A) :
  Forall P l -> Forall P (firstn n l).
Proof.
  revert l. induction n as [|n IH]; intros l H; [constructor|].
  destruct H; cbn; constructor; auto.
Qed.

Lemma firstn_seq (k start len : nat) :
  firstn k (seq start len) = seq start (Nat.min k len).
Proof.
  revert start len. induction k as [|k IH]; intros start len; [reflexivity|].
  destruct len as [|len]; [reflexivity|]. cbn. now rewrite IH.
Qed.

(** The output of a run that succeeds: at most 15 sections, as many
    subsections, with the ranks 1, 2, ... in order, titles of at most 120
    characters, and the same document and page at each position of the
    two lists. *)
Theorem run_output_shape (env : Env_b) (conf : Config) (out : Output) :
  run env conf = Done out ->
  exists ing ids,
    ingest env (cfg_documents conf) (mkIngested [] [] []) = Done ing
    /\ search env (texts ing) (cfg_persona conf ++ " " ++ cfg_task conf) 40
       = Ok ids
    /\ map importance_rank (extracted_sections out)
       = seq 1 (Nat.min 15 (List.length ids))
    /\ List.length (subsection_analysis out)
       = List.length (extracted_sections out)
    /\ map document (extracted_sections out)
       = map sub_document (subsection_analysis out)
    /\ map page_number (extracted_sections out)
       = map sub_page_number (subsection_analysis out)
    /\ Forall (fun s => (String.length (section_title s) <= 120)%nat)
              (extracted_sections out)
    /\ input_documents (out_metadata out) = map fst (cfg_documents conf).
Proof.
  unfold run.
  destruct (ingest env (cfg_documents conf) (mkIngested [] [] []))
    as [ing|e] eqn:Ei; cbn [and_then]; [|discriminate].
  destruct (search env (texts ing) _ 40) as [ids|e] eqn:Es;
    cbn [lift and_then]; [|discriminate].
  destruct (candidates env ing 1 ids) as [cands|e] eqn:Ec; cbn [and_then];
    [|discriminate].
  intros H. injection H as <-. exists ing, ids.
  destruct (candidates_shape _ _ _ _ _ Ec) as [Hr Ht].
  cbn [extracted_sections subsection_analysis out_metadata input_documents].
  split; [reflexivity|]. split; [exact Es|].
  rewrite !map_map. cbn [to_section to_subsection importance_rank document
                         page_number sub_document sub_page_number].
  split.
  { transitivity (firstn 15 (map cand_importance_rank cands));
      [rewrite firstn_map; reflexivity|].
    rewrite Hr. apply firstn_seq. }
  split; [now rewrite !length_map|].
  split; [reflexivity|]. split; [reflexivity|]. split; [|reflexivity].
  apply Forall_map. exact (Forall_firstn_keep _ 15 cands Ht).
Qed.

Example run_example :
  map (fun s => (document s, section_title s, importance_rank s,
                 page_number s))
      (extracted_sections sample_output)
  = [("report.pdf", "Plain body text.", 1%nat, 2%nat);
     ("report.pdf", "Results", 2%nat, 1%nat);
     ("report.pdf", "Plain body text.", 3%nat, 2%nat)].
Proof. reflexivity. Qed.

Lemma run_output_shape_witness :
  exists ing ids,
    ingest sample_env_b (cfg_documents sample_conf) (mkIngested [] [] [])
    = Done ing
    /\ search sample_env_b (texts ing)
         (cfg_persona sample_conf ++ " " ++ cfg_task sample_conf) 40
       = Ok ids
    /\ map importance_rank (extracted_sections sample_output)
       = seq 1 (Nat.min 15 (List.length ids))
    /\ List.length (subsection_analysis sample_output)
       = List.length (extracted_sections sample_output)
    /\ map document (extracted_sections sample_output)
       = map sub_document (subsection_analysis sample_output)
    /\ map page_number (extracted_sections sample_output)
       = map sub_page_number (subsection_analysis sample_output)
    /\ Forall (fun s => (String.length (section_title s) <= 120)%nat)
              (extracted_sections sample_output)
    /\ input_documents (out_metadata sample_output)
       = map fst (cfg_documents sample_conf).
Proof.
  apply (run_output_shape sample_env_b sample_conf sample_output).
  reflexivity.
Defined.

Lemma py_index_negative {A : Type} (l : list A) (i : Z) :
  i < 0 -> py_index l i = py_index l (i + Z.of_nat (List.length l)) \/
           ~ in_range (List.length l) i.
Proof.
  intros Hneg.
  destruct (Z_le_dec (- Z.of_nat (List.length l)) i) as [Hlo|Hlo].
  - left. unfold py_index.
    replace (i <? 0) with true by (symmetry; apply Z.ltb_lt; lia).
    replace (i + Z.of_nat (List.length l) <? 0) with false
      by (symmetry; apply Z.ltb_ge; lia).
    reflexivity.
  - right. unfold in_range. lia.
Qed.

(** A negative id that is in range is not an error: it is read from the
    end of the three lists, so [-1] names the last ingested block. *)
Theorem negative_id_counts_from_the_end (env : Env_b) (ing : Ingested)
    (rank : nat) (idx : Z) :
  parallel ing ->
  in_range (List.length (texts ing)) idx ->
  idx < 0 ->
  candidate env ing rank idx
  = candidate env ing rank (idx + Z.of_nat (List.length (texts ing)))
  /\ ((exists c, candidate env ing rank idx = Done c)
      \/ (exists e, candidate env ing rank idx = Failed (Decoder e))).
Proof.
  intros [Hd Hp] Hr Hneg.
  assert (Hdocs : py_index (docs ing) idx
                  = py_index (docs ing)
                      (idx + Z.of_nat (List.length (texts ing)))).
  { rewrite <- Hd. destruct (py_index_negative (docs ing) idx Hneg) as [H|H];
      [exact H|]. rewrite Hd in H. contradiction. }
  assert (Htexts : py_index (texts ing) idx
                   = py_index (texts ing)
                       (idx + Z.of_nat (List.length (texts ing)))).
  { destruct (py_index_negative (texts ing) idx Hneg) as [H|H];
      [exact H|contradiction]. }
  assert (Hpages : py_index (pages ing) idx
                   = py_index (pages ing)
                       (idx + Z.of_nat (List.length (texts ing)))).
  { rewrite <- Hp. destruct (py_index_negative (pages ing) idx Hneg) as [H|H];
      [exact H|]. rewrite Hp in H. contradiction. }
  split.
  { unfold candidate. rewrite <- Hdocs, <- Htexts, <- Hpages. reflexivity. }
  destruct (py_index_in_range (docs ing) idx) as [d Ed];
    [now rewrite Hd|].
  destruct (py_index_in_range (texts ing) idx Hr) as [t Et].
  destruct (py_index_in_range (pages ing) idx) as [p Ep];
    [now rewrite Hp|].
  unfold candidate. rewrite Ed, Et, Ep. cbn [and_then].
  destruct (refine env t) as [s|e] eqn:Er; cbn [lift and_then].
  - left. eexists. reflexivity.
  - right. exists e. reflexivity.
Qed.

Lemma negative_id_counts_from_the_end_witness :
  let ing := mkIngested ["a.pdf"; "b.pdf"] ["alpha"; "beta"] [1; 4]%nat in
  candidate sample_env_b ing 7 (-1) = candidate sample_env_b ing 7 1
  /\ candidate sample_env_b ing 7 (-1)
     = Done (mkCandidate "b.pdf" "beta" 7 4 "Summary: beta").
Proof.
  pose proof (negative_id_counts_from_the_end sample_env_b
                (mkIngested ["a.pdf"; "b.pdf"] ["alpha"; "beta"] [1; 4]%nat)
                7%nat (-1)) as H.
  cbn zeta. split; [|reflexivity].
  apply H.
  - split; reflexivity.
  - unfold in_range. cbn. lia.
  - lia.
Defined.

Lemma candidates_out_of_range env ing rank ids :
  parallel ing ->
  (forall t, exists s, refine env t = Ok s) ->
  Exists (fun i => ~ in_range (List.length (texts ing)) i) ids ->
  candidates env ing rank ids = Failed IndexError.
Proof.
  intros [Hd Hp] Hrefine. revert rank.
  induction ids as [|idx ids IH]; intros rank Hex; [inversion Hex|].
  cbn [candidates]. unfold candidate.
  destruct (Z_le_dec (- Z.of_nat (List.length (texts ing))) idx) as [Hlo|Hlo];
    [destruct (Z_lt_dec idx (Z.of_nat (List.length (texts ing))))
       as [Hhi|Hhi]|].
  - assert (Hr : in_range (List.length (texts ing)) idx)
      by (unfold in_range; lia).
    destruct (py_index_in_range (docs ing) idx) as [d Ed];
      [now rewrite Hd|].
    destruct (py_index_in_range (texts ing) idx Hr) as [t Et].
    destruct (py_index_in_range (pages ing) idx) as [p Ep];
      [now rewrite Hp|].
    rewrite Ed, Et, Ep. cbn [and_then].
    destruct (Hrefine t) as [s Es]. rewrite Es. cbn [lift and_then].
    rewrite IH; [reflexivity|].
    inversion Hex as [? ? Hhead|? ? Htail]; subst; [contradiction|exact Htail].
  - rewrite (py_index_out_of_range (docs ing) idx); [reflexivity|].
    rewrite Hd. unfold in_range. lia.
  - rewrite (py_index_out_of_range (docs ing) idx); [reflexivity|].
    rewrite Hd. unfold in_range. lia.
Qed.

(** Every id the index returns is looked up, also those after the first
    15: when the summarizer does not fail and some id is out of range,
    the run fails with [IndexError] and nothing is written. *)
Theorem out_of_range_id_fails_run (env : Env_b) (conf : Config)
    (ing : Ingested) (ids : list Z) :
  ingest env (cfg_documents conf) (mkIngested [] [] []) = Done ing ->
  search env (texts ing) (cfg_persona conf ++ " " ++ cfg_task conf) 40
  = Ok ids ->
  (forall t, exists s, refine env t = Ok s) ->
  Exists (fun i => ~ in_range (List.length (texts ing)) i) ids ->
  run env conf = Failed IndexError.
Proof.
  intros Hi Hs Hrefine Hex. unfold run. rewrite Hi. cbn [and_then].
  rewrite Hs. cbn [lift and_then].
  rewrite candidates_out_of_range; auto.
  apply (ingest_parallel env (cfg_documents conf) (mkIngested [] [] []));
    [split; reflexivity|exact Hi].
Qed.

Lemma out_of_range_id_fails_run_witness :
  List.length (texts sample_ingested) = 4%nat
  /\ run (with_ids sample_env_b sixteen_ids) sample_conf = Failed IndexError.
Proof.
  split; [reflexivity|].
  apply (out_of_range_id_fails_run (with_ids sample_env_b sixteen_ids)
           sample_conf sample_ingested sixteen_ids).
  - reflexivity.
  - reflexivity.
  - intros t. eexists. reflexivity.
  - unfold sixteen_ids. do 15 apply Exists_cons_tl. apply Exists_cons_hd.
    unfold in_range. intros [_ H]. vm_compute in H. discriminate H.
Defined.

(** ** Further properties of the outline and of the tally *)

Lemma extract_outline_fields doc items :
  get_toc doc = Ok items ->
  map outline_fields (extract_outline doc)
  = map (firstn 3) (filter has_three items).
Proof.
  intros Htoc. unfold extract_outline. rewrite Htoc. clear Htoc.
  induction items as [|item items IH]; [reflexivity|].
  cbn [flat_map filter]. rewrite map_app, IH.
  destruct item as [|a [|b [|c rest]]]; reflexivity.
Qed.

Lemma extract_try_outline version clock doc pdf_path r :
  extract_try version clock (Ok doc) pdf_path = Ok r ->
  outline r = extract_outline doc.
Proof.
  unfold extract_try. cbn [bind].
  destruct (analyze_font_statistics doc 5) as [fs|e]; cbn [bind];
    [|discriminate].
  destruct (page_loop doc fs _ _) as [res1|e] eqn:El; cbn [bind];
    [|discriminate].
  destruct (doc_close doc) as [u|e]; cbn [bind]; [|discriminate].
  intros H. injection H as <-. apply page_loop_extend in El.
  destruct El as [added ->]. reflexivity.
Qed.

(** The outline of a processed document holds, in the order of the
    bookmark table, the first three fields (level, title, page) of every
    bookmark that has at least three; shorter bookmarks are left out. *)
Theorem outline_keeps_bookmarks_of_three (version : string) (clock : Clock)
    (doc : Document) (pdf_path : Path) (r : DocumentResult)
    (items : list (list PyVal)) :
  extract_try version clock (Ok doc) pdf_path = Ok r ->
  get_toc doc = Ok items ->
  map outline_fields (outline r) = map (firstn 3) (filter has_three items)
  /\ (List.length (outline r) <= List.length items)%nat.
Proof.
  intros Hr Htoc. rewrite (extract_try_outline _ _ _ _ _ Hr).
  pose proof (extract_outline_fields doc items Htoc) as H.
  split; [exact H|].
  apply (f_equal (@List.length _)) in H. rewrite !length_map in H.
  rewrite H. apply filter_length_le.
Qed.

Lemma outline_keeps_bookmarks_of_three_witness :
  let r :=
    extract_pdf_structure "1.26.0" clock0 (Ok three_page_doc) report_pdf in
  map outline_fields (outline r)
  = [[PyInt 1; PyStr "Results"; PyInt 1]]
  /\ (List.length (outline r) <= 2)%nat.
Proof.
  apply (outline_keeps_bookmarks_of_three "1.26.0" clock0 three_page_doc
           report_pdf
           (extract_pdf_structure "1.26.0" clock0 (Ok three_page_doc)
              report_pdf)
           [[PyInt 1; PyStr "Results"; PyInt 1]; [PyInt 2; PyStr "short"]]).
  - reflexivity.
  - reflexivity.
Defined.

Lemma successes_all env output_dir files :
  (forall f, In f files -> process_single_pdf env f output_dir = true) ->
  successes env output_dir files = List.length files.
Proof.
  unfold successes. induction files as [|f files IH]; intros H;
    [reflexivity|].
  cbn [filter]. rewrite (H f (or_introl eq_refl)). cbn [List.length].
  rewrite IH; [reflexivity|]. intros g Hg. apply H. now right.
Qed.

(** Success means that the artifact was written, not that the document
    was read: when every write succeeds and no future raises, the tally
    is the number of files, whether or not any of them can be opened. *)
Theorem writable_output_counts_every_file (env : Env) (output_dir : string)
    (pdf_files : list Path) :
  pdf_files <> [] ->
  (forall file res, exists u, write_json env file res = Ok u) ->
  (forall pool,
      make_pool env (max_workers env) = Ok pool ->
      forall j, future_error pool j = None) ->
  process_pdfs env output_dir pdf_files = Some (List.length pdf_files)
  /\ (forall f e,
         fitz_open env (path_str f) = Raise e ->
         process_single_pdf env f output_dir = true).
Proof.
  intros Hne Hwrite Hpool.
  assert (Hall : forall f, process_single_pdf env f output_dir = true).
  { intros f. unfold process_single_pdf.
    match goal with
    | |- context [write_json env ?file ?res] =>
        destruct (Hwrite file res) as [u ->]
    end. reflexivity. }
  split; [|intros f e _; apply Hall].
  destruct pdf_files as [|f [|g files]]; [congruence| |].
  - cbn. now rewrite Hall.
  - unfold process_pdfs.
    destruct (make_pool env (max_workers env)) as [pool|e] eqn:Ep.
    + rewrite collect_healthy by (apply (Hpool pool); reflexivity).
      rewrite sequential_successes, successes_all; [reflexivity|].
      intros h _. apply Hall.
    + rewrite sequential_successes, successes_all; [reflexivity|].
      intros h _. apply Hall.
Qed.

Lemma writable_output_counts_every_file_witness :
  process_pdfs unreadable_env "output" sample_files
  = Some (List.length sample_files)
  /\ (forall f e,
         fitz_open unreadable_env (path_str f) = Raise e ->
         process_single_pdf unreadable_env f "output" = true).
Proof.
  apply (writable_output_counts_every_file unreadable_env "output"
           sample_files).
  - discriminate.
  - intros file res. exists tt. reflexivity.
  - intros pool H j. cbn in H. injection H as <-. reflexivity.
Defined.

(** * The output artifact (C9) *)

Lemma PyValue_induction (P : PyValue -> Prop) :
  P VNone -> (forall z, P (VInt z)) -> (forall x, P (VFloat x)) ->
  (forall q, P (VTime q)) -> (forall s, P (VStr s)) ->
  (forall l, Forall P l -> P (VList l)) ->
  (forall l, Forall P l -> P (VTuple l)) ->
  (forall d, Forall (fun kv => P (snd kv)) d -> P (VDict d)) ->
  forall v, P v.
Proof.
  intros Hnone Hint Hfloat Htime Hstr Hlist Htuple Hdict.
  fix IH 1. intros [ |z|x|q|s|l|l|d].
  - exact Hnone.
  - apply Hint.
  - apply Hfloat.
  - apply Htime.
  - apply Hstr.
  - apply Hlist. induction l as [|v l IHl]; constructor; [apply IH|exact IHl].
  - apply Htuple. induction l as [|v l IHl]; constructor; [apply IH|exact IHl].
  - apply Hdict. induction d as [|[k v] d IHd]; constructor;
      [apply IH|exact IHd].
Qed.

(** Reading back what was written turns the tuples into lists and changes
    nothing else. *)
Lemma load_dump (v : PyValue) : load (dump v) = listify v.
Proof.
  induction v as [ |z|x|q|s|l IH|l IH|d IH] using PyValue_induction;
    cbn [dump load listify]; try reflexivity.
  - f_equal. induction IH as [|v l Hv _ IHl]; cbn [map];
      [reflexivity|]. now rewrite Hv, IHl.
  - f_equal. induction IH as [|v l Hv _ IHl]; cbn [map];
      [reflexivity|]. now rewrite Hv, IHl.
  - f_equal. induction IH as [|[k v] d Hv _ IHd]; cbn [map fst snd];
      [reflexivity|]. cbn [snd] in Hv. now rewrite Hv, IHd.
Qed.

Lemma listify_val (v : PyVal) : listify (py_of_val v) = py_of_val v.
Proof. destruct v; reflexivity. Qed.

Lemma listify_metadata (m : Metadata) :
  listify (py_of_metadata m) = py_of_metadata m.
Proof. destruct m; cbn; now rewrite ?listify_val. Qed.

Lemma listify_info (i : ProcessingInfo) : listify (py_of_info i) = py_of_info i.
Proof. unfold py_of_info. destruct (error i); reflexivity. Qed.

Lemma listify_outline (l : list OutlineEntry) :
  map listify (map py_of_outline l) = map py_of_outline l.
Proof.
  induction l as [|o l IH]; cbn; [reflexivity|].
  now rewrite IH, !listify_val.
Qed.

(** A section does not survive: its bounding box is a tuple. *)
Lemma listify_section (s : SectionEntry) :
  listify (py_of_section s) <> py_of_section s.
Proof.
  unfold py_of_section, py_of_bbox.
  destruct (sec_bbox s) as [[[x0 y0] x1] y1]. cbn. intros H.
  injection H as H. discriminate H.
Qed.

(** C9, as stated, fails for a result that has a section: the bounding
    box, a tuple, is read back as a list. *)
Lemma round_trips_counterexample :
  ~ round_trips
      (extract_pdf_structure "1.26.0" clock0 (Ok three_page_doc) report_pdf).
Proof.
  unfold round_trips. rewrite load_dump. intros H. vm_compute in H.
  discriminate H.
Qed.

(** C9 (amended): writing any result of the extractor and reading it back
    gives the same dictionary, field for field, except that every tuple,
    that is the bounding box of every section, comes back as a list; the
    result is read back unchanged exactly when it has no section. *)
Theorem round_trip_up_to_tuples (version : string) (clock : Clock)
    (opened : result Document) (pdf_path : Path) :
  let r := extract_pdf_structure version clock opened pdf_path in
  load (dump (to_py r)) = listify (to_py r)
  /\ (round_trips r <-> sections r = []).
Proof.
  cbn zeta. set (r := extract_pdf_structure version clock opened pdf_path).
  split; [apply load_dump|]. unfold round_trips. rewrite load_dump.
  unfold to_py. cbn [listify map fst snd].
  rewrite listify_metadata, listify_info, listify_outline.
  split.
  - intros H. destruct (sections r) as [|s l]; [reflexivity|].
    exfalso. cbn [map] in H. apply (listify_section s). congruence.
  - intros ->. reflexivity.
Qed.

(** * Binary64 at concrete inputs *)

(** The products and the mean round as in the code. *)
Example rounding_examples :
  (12 * 1.2 = 14.399999999999999)%float
  /\ (10.75 * 0.8 = 8.6)%float
  /\ sum_sizes [10.8; 10.8; 10.8]%float = 32.400000000000006%float
  /\ py_div (sum_sizes [10.8; 10.8; 10.8]%float) 3
     = Ok 10.800000000000002%float
  /\ py_div (sum_sizes [11.2; 11.2; 11.2]%float) 3
     = Ok 11.199999999999998%float.
Proof. repeat split. Qed.

(** Size 8.6 is not below 0.8 times an average of 10.75. *)
Example classify_at_the_footnote_threshold :
  classify_text_type (mkSpan "note" 8.6 0 "Times")
    (stats_of_average 10.75 None None) = (paragraph, 0).
Proof. reflexivity. Qed.

(** Three bold blocks of 11.2 pt: the mean is below 11.2, so each block is
    larger than the average and becomes a level-2 heading. *)
Example uniform_bold_document :
  let r :=
    extract_pdf_structure "1.26.0" clock0 (Ok (uniform_doc 11.2)) report_pdf in
  analyze_font_statistics (uniform_doc 11.2) 5
  = Ok (mkFontStats 11.199999999999998 (Some 11.2%float)
          (11.199999999999998 * 1.2)%float (11.199999999999998 * 1.5)%float
          (Some [11.2; 11.2; 11.2]%float))
  /\ map sec_type (sections r) = [heading; heading; heading]
  /\ map sec_level (sections r) = [Some 2; Some 2; Some 2].
Proof. vm_compute. repeat split. Qed.

